(** * StockETL: incremental reconciliation of per-ticker stock data

    A shallow embedding of [ETL/stock_etl.py] (class [StockETL]) and a
    verification of its reconciliation and write-mode logic: ticker
    classification against the stored per-ticker artifacts, the choice
    between overwrite and append, the per-ticker aggregation and the
    orchestration in [run_etl].

    Conventions of the embedding.
    - A Spark DataFrame is the list of its rows; a nullable column is an
      [option].  Timestamps are microseconds since 1970-01-01T00:00:00 UTC,
      dates are days since then; a double is a [spec_float] (sign, mantissa
      and exponent), which the pipeline only carries along.
    - A Python dict is a [gmap], a Python set a [gset]; iterating a set or
      turning it into a list goes through [elements].  The order of a
      Python set is unspecified and [elements] stands for one order: the
      properties below use such lists through membership or up to
      permutation, and the loop over the tickers present on both sides is
      shown to give the same lists, up to order, in whatever order it takes
      them.
    - The object [self] and the outside world (input folders, the StockData
      parquet store, the two MongoDB collections) form one explicit state
      that every method threads; a raised exception ends the method and
      keeps the state reached so far.
    - [print] calls are omitted. *)

From Stdlib Require Import ZArith String Ascii Floats.SpecFloat Lia.
From Stdlib Require Import Sorting.Sorted.
From stdpp Require Import gmap strings list fin_maps.

Local Open Scope string_scope.
Local Open Scope Z_scope.

(** * Part I: the embedding *)

(** ** Data model *)

(** One record of an input file, as [define_raw_data_schema] lays it out;
    every field is declared nullable there. *)
Record RawRecord := mkRawRecord {
  raw_date : option Z;
  raw_open : option spec_float;
  raw_high : option spec_float;
  raw_low : option spec_float;
  raw_close : option spec_float;
  raw_volume : option Z
}.

(** A file of the input folder: the name Spark's [input_file_name] reports
    for its records, and the records. *)
Record CsvFile := mkCsvFile {
  file_name : string;
  records : list RawRecord
}.

(** A row of the prepared stock data, in the column order of the final
    [select] of [read_prepare_input_files]. *)
Record Row := mkRow {
  ticker : string;
  date_time : option Z;
  year : option Z;
  month : option Z;
  date : option Z;
  time : option string;
  open : option spec_float;
  high : option spec_float;
  low : option spec_float;
  close : option spec_float;
  volume : option Z
}.

(** The per-ticker figures [create_save_stock_data_artifacts] aggregates,
    and the document the StockDataArtifacts collection keeps per ticker. *)
Record Stats := mkStats {
  row_count : Z;
  oldest_date : option Z;
  latest_date : option Z
}.

(** A document of the ETLArtifacts collection. *)
Record RunArtifact := mkRunArtifact {
  art_run_id : string;
  art_tickers_missing : list string;
  art_tickers_new : list string;
  art_tickers_updated : list string;
  art_skip_writing : bool
}.

(** The attributes of a [StockETL] object.  [self_date], [self_year] and
    [self_month] are the attributes [date], [year] and [month]; [run_id] is
    the attribute the [ETLArtifacts] parent provides. *)
Record StockETL := mkStockETL {
  input_folder_path : string;
  self_date : string;
  self_year : Z;
  self_month : Z;
  mode : string;
  skip_writing : bool;
  tickers_new : list string;
  api_artifacts : gmap string string;
  run_id : string
}.

(** Everything outside the object.  [storage_error] is the environment's
    choice for the next parquet write: [Some e] makes the write raise an
    exception whose text is [e]. *)
Record World := mkWorld {
  folders : gmap string (list CsvFile);
  StockData : list Row;
  storage_error : option string;
  StockDataArtifacts : gmap string Stats;
  ETLArtifacts : list RunArtifact
}.

Record State := mkState {
  self : StockETL;
  world : World
}.

(** Attribute and store updates. *)
Definition set_mode (v : string) (s : StockETL) : StockETL :=
  mkStockETL (input_folder_path s) (self_date s) (self_year s) (self_month s)
    v (skip_writing s) (tickers_new s) (api_artifacts s) (run_id s).

Definition set_skip_writing (v : bool) (s : StockETL) : StockETL :=
  mkStockETL (input_folder_path s) (self_date s) (self_year s) (self_month s)
    (mode s) v (tickers_new s) (api_artifacts s) (run_id s).

Definition set_tickers_new (v : list string) (s : StockETL) : StockETL :=
  mkStockETL (input_folder_path s) (self_date s) (self_year s) (self_month s)
    (mode s) (skip_writing s) v (api_artifacts s) (run_id s).

Definition set_api_artifact (k v : string) (s : StockETL) : StockETL :=
  mkStockETL (input_folder_path s) (self_date s) (self_year s) (self_month s)
    (mode s) (skip_writing s) (tickers_new s) (<[k:=v]> (api_artifacts s))
    (run_id s).

Definition set_StockData (v : list Row) (w : World) : World :=
  mkWorld (folders w) v (storage_error w) (StockDataArtifacts w)
    (ETLArtifacts w).

Definition set_StockDataArtifacts (v : gmap string Stats) (w : World) : World :=
  mkWorld (folders w) (StockData w) (storage_error w) v (ETLArtifacts w).

Definition set_ETLArtifacts (v : list RunArtifact) (w : World) : World :=
  mkWorld (folders w) (StockData w) (storage_error w) (StockDataArtifacts w) v.

(** ** Exceptions and the method monad *)

Inductive exn :=
  | Exception (msg : string)
  | TypeError (msg : string)
  | KeyError (key : string)
  | AnalysisException (msg : string).

Inductive outcome (A : Type) :=
  | Ok (x : A)
  | Raise (e : exn).
Arguments Ok {A} x.
Arguments Raise {A} e.

(** A method: from the state before the call to its outcome and the state
    after it. *)
Definition M (A : Type) : Type := State → outcome A * State.

Definition ret {A} (x : A) : M A := λ st, (Ok x, st).

Definition bind {A B} (m : M A) (k : A → M B) : M B :=
  λ st, match m st with
        | (Ok x, st') => k x st'
        | (Raise e, st') => (Raise e, st')
        end.

Definition raise {A} (e : exn) : M A := λ st, (Raise e, st).

Definition lift {A} (o : outcome A) : M A := λ st, (o, st).

Definition get_self : M StockETL := λ st, (Ok (self st), st).
Definition get_world : M World := λ st, (Ok (world st), st).

Definition modify_self (f : StockETL → StockETL) : M unit :=
  λ st, (Ok tt, mkState (f (self st)) (world st)).

Definition modify_world (f : World → World) : M unit :=
  λ st, (Ok tt, mkState (self st) (f (world st))).

Definition try_except {A} (m : M A) (handler : exn → M A) : M A :=
  λ st, match m st with
        | (Raise e, st') => handler e st'
        | r => r
        end.

(** [str(e)] of a caught exception. *)
Definition exn_str (e : exn) : string :=
  match e with
  | Exception msg | TypeError msg | AnalysisException msg => msg
  | KeyError key => key
  end.

Notation "x <- m ;; k" := (bind m (λ x, k))
  (at level 100, m at next level, right associativity).
Notation "m ;; k" := (bind m (λ _, k))
  (at level 100, right associativity).

(** Sequencing of pure steps that may raise. *)
Definition obind {A B} (o : outcome A) (k : A → outcome B) : outcome B :=
  match o with
  | Ok x => k x
  | Raise e => Raise e
  end.

(** ** Spark built-ins used by the loader *)

(** [to_date]: the calendar day of a timestamp (session time zone UTC). *)
Definition to_date (ts : Z) : Z := ts / 86400000000.

(** Year, month and day of month of a day number in the proleptic Gregorian
    calendar. *)
Definition civil_from_days (days : Z) : Z * Z * Z :=
  let z := days + 719468 in
  let era := z / 146097 in
  let doe := z - era * 146097 in
  let yoe := (doe - doe / 1460 + doe / 36524 - doe / 146096) / 365 in
  let doy := doe - (365 * yoe + yoe / 4 - yoe / 100) in
  let mp := (5 * doy + 2) / 153 in
  let d := doy - (153 * mp + 2) / 5 + 1 in
  let m := if mp <? 10 then mp + 3 else mp - 9 in
  let y := yoe + era * 400 + (if m <=? 2 then 1 else 0) in
  (y, m, d).

Definition days_from_civil (y m d : Z) : Z :=
  let y' := if m <=? 2 then y - 1 else y in
  let era := y' / 400 in
  let yoe := y' - era * 400 in
  let doy := (153 * (if 2 <? m then m - 3 else m + 9) + 2) / 5 + d - 1 in
  let doe := yoe * 365 + yoe / 4 - yoe / 100 + doy in
  era * 146097 + doe - 719468.

(** The timestamp of a civil date and time of day. *)
Definition timestamp_of (y m d hh mm ss : Z) : Z :=
  (days_from_civil y m d * 86400 + hh * 3600 + mm * 60 + ss) * 1000000.

(** [year] and [month] of a date column. *)
Definition spark_year (day : Z) : Z := (civil_from_days day).1.1.
Definition spark_month (day : Z) : Z := (civil_from_days day).1.2.

Definition digit (n : Z) : ascii := ascii_of_nat (48 + Z.to_nat n).

Definition two_digits (n : Z) : string :=
  String (digit (n / 10)) (String (digit (n mod 10)) "").

(** [date_format(_, "HH:mm:ss")]. *)
Definition date_format_HH_mm_ss (ts : Z) : string :=
  let s := (ts / 1000000) mod 86400 in
  two_digits (s / 3600) +:+ ":" +:+ two_digits ((s mod 3600) / 60) +:+ ":"
    +:+ two_digits (s mod 60).

(** The text before the last occurrence of ".csv" in [s], if there is one:
    what a greedy capture group followed by a literal ".csv" takes from the
    start of [s]. *)
Fixpoint before_last_csv (s : string) : option string :=
  match s with
  | EmptyString => None
  | String c rest =>
      match before_last_csv rest with
      | Some p => Some (String c p)
      | None => if String.prefix ".csv" s then Some "" else None
      end
  end.

(** Group 1 of the first match of the loader's pattern (anything, a slash,
    the captured group, ".csv") in [s]: the greedy prefix ends at the last
    slash after which ".csv" still occurs. *)
Fixpoint match_ticker (s : string) : option string :=
  match s with
  | EmptyString => None
  | String c rest =>
      match match_ticker rest with
      | Some t => Some t
      | None => if Ascii.eqb c "/" then before_last_csv rest else None
      end
  end.

(** [regexp_extract] of group 1 of that pattern on the file name: the empty
    string when the pattern does not match. *)
Definition regexp_extract_ticker (file_name : string) : string :=
  default "" (match_ticker file_name).

(** [orderBy("ticker", "date_time")]: ascending, nulls first, stable. *)
Definition date_time_leb (a b : option Z) : bool :=
  match a, b with
  | None, _ => true
  | Some _, None => false
  | Some x, Some y => x <=? y
  end.

Definition row_leb (r1 r2 : Row) : bool :=
  match String.compare (ticker r1) (ticker r2) with
  | Lt => true
  | Gt => false
  | Eq => date_time_leb (date_time r1) (date_time r2)
  end.

Fixpoint insert_row (r : Row) (l : list Row) : list Row :=
  match l with
  | [] => [r]
  | x :: l' => if row_leb r x then r :: l else x :: insert_row r l'
  end.

Definition orderBy_ticker_date_time (df : list Row) : list Row :=
  foldr insert_row [] df.

(** ** Aggregation built-ins *)

(** [max] and [min] over a column: nulls are skipped, and the result is
    null when no value is left. *)
Definition sql_max (col : list (option Z)) : option Z :=
  foldr (λ v acc, match v, acc with
                  | Some x, Some y => Some (Z.max x y)
                  | Some x, None => Some x
                  | None, _ => acc
                  end) None col.

Definition sql_min (col : list (option Z)) : option Z :=
  foldr (λ v acc, match v, acc with
                  | Some x, Some y => Some (Z.min x y)
                  | Some x, None => Some x
                  | None, _ => acc
                  end) None col.

(** [when(cond, value)] without [otherwise]: null where the condition does
    not hold. *)
Definition when (cond : bool) (value : option Z) : option Z :=
  if cond then value else None.

(** [col("ticker").isin(tickers)]. *)
Definition isin (t : string) (tickers : list string) : bool :=
  bool_decide (t ∈ tickers).

(** The distinct values of a key column, in the order [distinct] happens to
    give them. *)
Definition distinct_keys {R} (key : R → string) (df : list R) : list string :=
  remove_dups (key <$> df).

(** [select("ticker").distinct()], collected into a list. *)
Definition distinct_tickers (df : list Row) : list string :=
  distinct_keys ticker df.

(** The rows of one group of [groupBy(key)]. *)
Definition group {R} (key : R → string) (k : string) (df : list R) : list R :=
  filter (λ r, key r = k) df.

(** [groupBy(key).agg(...)]: one row per distinct key, made of the key and
    the aggregates of its group. *)
Definition groupBy {R A} (key : R → string) (agg : string → list R → A)
    (df : list R) : list (string * A) :=
  (λ k, (k, agg k (group key k df))) <$> distinct_keys key df.

(** A dict comprehension over collected rows: a later row replaces an
    earlier one with the same key. *)
Definition dict_of_rows {V} (rows : list (string * V)) : gmap string V :=
  list_to_map (reverse rows).

(** [d[k]] on a dict. *)
Definition getitem {V} (d : gmap string V) (k : string) : outcome V :=
  match d !! k with
  | Some v => Ok v
  | None => Raise (KeyError k)
  end.

(** [a <= b] on two collected timestamps: Python refuses to order [None]. *)
Definition py_le (a b : option Z) : outcome bool :=
  match a, b with
  | Some x, Some y => Ok (x <=? y)
  | _, _ => Raise (TypeError "'<=' not supported between these instances")
  end.

(** ** Collaborators outside [stock_etl.py] *)

(** Modelled from the spec: [StockDataArtifacts.export_ticker_data_from_mongo]
    is not part of the source at hand.  It reads the per-ticker documents
    and returns the snapshot the classification compares against: a dict
    from ticker to the stored [latest_date]. *)
Definition export_ticker_data_from_mongo : M (gmap string (option Z)) :=
  λ st, (Ok (latest_date <$> StockDataArtifacts (world st)), st).

(** The document of a ticker before the first aggregation: no row counted
    and no dates yet. *)
Definition stub_stats : Stats := mkStats 0 None None.

(** Modelled from the spec: [ETLArtifacts.create_first_etl_art_doc] is not
    part of the source at hand.  It creates the run artifact of the first
    run, in which every ticker handed over counts as new, and one stub
    document per ticker handed over, whose row count and dates the
    aggregation step fills in later. *)
Definition create_first_etl_art_doc (unique_tickers : list string) : M unit :=
  s <- get_self ;;
  modify_world (λ w, set_ETLArtifacts
    (ETLArtifacts w ++ [mkRunArtifact (run_id s) [] unique_tickers [] false]) w) ;;
  modify_world (λ w, set_StockDataArtifacts
    (foldl (λ docs t, <[t := stub_stats]> docs) (StockDataArtifacts w)
       unique_tickers) w).

(** Modelled from the spec: [ETLArtifacts.update_etl_artifacts] is not part
    of the source at hand.  It persists one watermark-update request that
    carries the missing, new and updated tickers and the skip flag, tagged
    with the identifier of the run. *)
Definition update_etl_artifacts (tickers_missing tickers_new tickers_update
    : list string) (skip_writing : bool) : M unit :=
  s <- get_self ;;
  modify_world (λ w, set_ETLArtifacts
    (ETLArtifacts w ++ [mkRunArtifact (run_id s) tickers_missing tickers_new
                          tickers_update skip_writing]) w).

(** A [years] or [months] argument of [get_data]: no restriction when it is
    not given, otherwise the (non-null) value has to be listed. *)
Definition in_scope (allowed : option (list Z)) (v : option Z) : bool :=
  match allowed, v with
  | None, _ => true
  | Some l, Some x => bool_decide (x ∈ l)
  | Some _, None => false
  end.

(** The stored rows within the given years and months, cut down to the
    columns [ticker] and [date_time]. *)
Definition read_stock_data (years months : option (list Z)) (w : World)
    : list (string * option Z) :=
  (λ r, (ticker r, date_time r)) <$>
    filter (λ r, in_scope years (year r) && in_scope months (month r))
      (StockData w).

(** Modelled from the spec: [StockLoader.get_data] is not part of the source
    at hand.  It reads the StockData store, restricted to the given years
    and months when they are given; both calls ask for the columns
    [ticker] and [date_time] only. *)
Definition get_data (years months : option (list Z))
    : M (list (string * option Z)) :=
  w <- get_world ;;
  ret (read_stock_data years months w).

(** Modelled from the spec: [StockDataArtifacts.add_first_stock_artifacts]
    is not part of the source at hand.  It stores one document per
    aggregated ticker, with the figures counted over the full scope. *)
Definition add_first_stock_artifacts (aggregated_df : list (string * Stats))
    : M unit :=
  modify_world (λ w, set_StockDataArtifacts
    (foldl (λ docs row, <[row.1 := row.2]> docs) (StockDataArtifacts w)
       aggregated_df) w).

(** The merge of an aggregated row into a stored document: the row count is
    added, and a date replaces the stored one unless it is null. *)
Definition merge_stats (stored agg : Stats) : Stats :=
  mkStats (row_count stored + row_count agg)
    (match oldest_date agg with
     | Some d => Some d
     | None => oldest_date stored
     end)
    (match latest_date agg with
     | Some d => Some d
     | None => latest_date stored
     end).

Definition upsert_stats (docs : gmap string Stats) (row : string * Stats)
    : gmap string Stats :=
  match docs !! row.1 with
  | None => <[row.1 := row.2]> docs
  | Some stored => <[row.1 := merge_stats stored row.2]> docs
  end.

(** Modelled from the spec: [StockDataArtifacts.update_stock_artifacts] is
    not part of the source at hand.  It upserts one document per aggregated
    ticker: created if absent, else merged, with an additive row count and
    the stored [oldest_date] kept for a ticker that already has one. *)
Definition update_stock_artifacts (aggregated_df : list (string * Stats))
    : M unit :=
  modify_world (λ w, set_StockDataArtifacts
    (foldl upsert_stats (StockDataArtifacts w) aggregated_df) w).

(** The CSV read of all files of the folder, followed by [input_file_name]:
    every record of every file, with the name of its file.  The read is of
    the glob made of the folder, a slash and a star, and Spark refuses a
    glob that matches no file: a folder that does not exist or holds no
    file raises. *)
Definition spark_read_csv (folder : string) : M (list (string * RawRecord)) :=
  w <- get_world ;;
  match folders w !! folder with
  | Some (f :: files) =>
      ret ((f :: files) ≫= (λ f, (λ r, (file_name f, r)) <$> records f))
  | Some [] | None =>
      raise (AnalysisException ("Path does not exist: " +:+ folder +:+ "/*"))
  end.

(** [df.write.partitionBy(...).mode(mode).parquet("StockData")]: overwrite
    replaces the stored dataset, append adds to it.  A failing write leaves
    the store as it was. *)
Definition spark_write_parquet (mode : string) (df : list Row) : M unit :=
  w <- get_world ;;
  match storage_error w with
  | Some e => raise (Exception e)
  | None =>
      if String.eqb mode "overwrite" then modify_world (set_StockData df)
      else if String.eqb mode "append" then
        modify_world (set_StockData (StockData w ++ df))
      else raise (Exception ("Unknown save mode: " +:+ mode))
  end.

(** ** The methods of [StockETL] *)

Definition _validate_input_folder (input_folder_path : string) (w : World)
    : outcome string :=
  match folders w !! input_folder_path with
  | Some _ => Ok input_folder_path
  | None => Raise (Exception ("Input folder not found:: " +:+ input_folder_path))
  end.

(** The constructor.  [extract_date_from_path] (from [utils.date_transform]) and
    the run identifier set up by the [ETLArtifacts] parent are not part of
    the source at hand and are taken as arguments. *)
Definition __init__ (extract_date_from_path : string → string * Z * Z)
    (run_id : string) (input_folder_path : string) (w : World)
    : outcome StockETL :=
  obind (_validate_input_folder input_folder_path w) (λ path,
    let '(d, y, m) := extract_date_from_path input_folder_path in
    Ok (mkStockETL path d y m "append" false [] ∅ run_id)).

(** Steps 3 to 5 of [read_prepare_input_files] on one record. *)
Definition prepare_row (fr : string * RawRecord) : Row :=
  let ticker := regexp_extract_ticker fr.1 in
  let date_time := raw_date fr.2 in
  let date := to_date <$> date_time in
  mkRow ticker date_time (spark_year <$> date) (spark_month <$> date) date
    (date_format_HH_mm_ss <$> date_time)
    (raw_open fr.2) (raw_high fr.2) (raw_low fr.2) (raw_close fr.2)
    (raw_volume fr.2).

Definition read_prepare_input_files : M (list Row) :=
  s <- get_self ;;
  df <- spark_read_csv (input_folder_path s) ;;
  match df with
  | [] => raise (Exception ("The Stock Data in '" +:+ input_folder_path s
                              +:+ "' is empty."))
  | _ =>
      modify_self (set_api_artifact "LoadingData" "Successful") ;;
      ret (orderBy_ticker_date_time (prepare_row <$> df))
  end.

(** The maximum [date_time] per ticker, as a collected frame and as the dict
    built from it. *)
Definition df_latest_dates_list (stock_data : list Row)
    : list (string * option Z) :=
  groupBy ticker (λ _ g, sql_max (date_time <$> g)) stock_data.

Definition df_latest_dates_dict (stock_data : list Row)
    : gmap string (option Z) :=
  dict_of_rows (df_latest_dates_list stock_data).

(** The loop over the tickers present on both sides. *)
Fixpoint classify_loop (df_dict mongo_dict : gmap string (option Z))
    (tickers : list string) (tickers_update tickers_current : list string)
    : outcome (list string * list string) :=
  match tickers with
  | [] => Ok (tickers_update, tickers_current)
  | t :: rest =>
      obind (getitem df_dict t) (λ df_latest,
      obind (getitem mongo_dict t) (λ mongo_latest,
      obind (py_le df_latest mongo_latest) (λ is_current,
        if is_current
        then classify_loop df_dict mongo_dict rest tickers_update
               (tickers_current ++ [t])
        else classify_loop df_dict mongo_dict rest (tickers_update ++ [t])
               tickers_current)))
  end.

Definition validate_file_to_write (stock_data : list Row) : M (list Row) :=
  mongo_ticker_dict <- export_ticker_data_from_mongo ;;
  if decide (mongo_ticker_dict = ∅) then
    let unique_tickers := distinct_tickers stock_data in
    create_first_etl_art_doc unique_tickers ;;
    modify_self (set_mode "overwrite") ;;
    modify_self (set_api_artifact "ETLArtifacts"
                   "First artifacts created successfully") ;;
    s <- get_self ;;
    modify_self (set_api_artifact "run_id" (run_id s)) ;;
    ret stock_data
  else
    let dict := df_latest_dates_dict stock_data in
    let tickers_df : gset string := dom dict in
    let tickers_mongo : gset string := dom mongo_ticker_dict in
    modify_self (set_tickers_new (elements (tickers_df ∖ tickers_mongo))) ;;
    let tickers_missing := elements (tickers_mongo ∖ tickers_df) in
    uc <- lift (classify_loop dict mongo_ticker_dict
                  (elements (tickers_df ∩ tickers_mongo)) [] []) ;;
    let tickers_update := uc.1 in
    let tickers_current := uc.2 in
    let filtered_df :=
      filter (λ r, ¬ isin (ticker r) tickers_current) stock_data in
    s <- get_self ;;
    (match tickers_update, tickers_new s with
     | [], [] =>
         modify_self (set_skip_writing true) ;;
         modify_self (set_api_artifact "WritingMode"
                        "Data already up-to date. Write skipped")
     | _, _ => modify_self (set_api_artifact "WritingMode" (mode s))
     end) ;;
    s <- get_self ;;
    update_etl_artifacts tickers_missing (tickers_new s) tickers_update
      (skip_writing s) ;;
    modify_self (set_api_artifact "ETLArtifacts"
                   "ETL Artifacts added successfully") ;;
    modify_self (set_api_artifact "run_id" (run_id s)) ;;
    ret filtered_df.

Definition write_partitioned_stock_data (stock_data : list Row) : M unit :=
  s <- get_self ;;
  try_except (spark_write_parquet (mode s) stock_data)
    (λ e, raise (Exception ("Could not save data in StockData. ERROR: "
                              +:+ exn_str e))) ;;
  modify_self (set_api_artifact "WritingData" "Successful").

(** The aggregation of the first run: count, minimum and maximum per
    ticker. *)
Definition first_aggregated_df (df : list (string * option Z))
    : list (string * Stats) :=
  groupBy fst (λ _ g, mkStats (Z.of_nat (length g)) (sql_min (snd <$> g))
                        (sql_max (snd <$> g))) df.

(** The aggregation of a later run: count and maximum per ticker, and the
    minimum over a conditional column that is null outside [tickers_new]. *)
Definition update_aggregated_df (tickers_new : list string)
    (df : list (string * option Z)) : list (string * Stats) :=
  groupBy fst
    (λ _ g, mkStats (Z.of_nat (length g))
              (sql_min ((λ r, when (isin r.1 tickers_new) r.2) <$> g))
              (sql_max (snd <$> g))) df.

Definition create_save_stock_data_artifacts : M unit :=
  s <- get_self ;;
  if String.eqb (mode s) "overwrite" then
    df <- get_data None None ;;
    add_first_stock_artifacts (first_aggregated_df df) ;;
    modify_self (set_api_artifact "StockDataArtifacts"
                   "First artifacts created successfully")
  else
    df <- get_data (Some [self_year s]) (Some [self_month s]) ;;
    update_stock_artifacts (update_aggregated_df (tickers_new s) df) ;;
    modify_self (set_api_artifact "StockDataArtifacts"
                   "Artifacts updated successfully").

Definition run_etl : M (list (gmap string string)) :=
  stock_data <- read_prepare_input_files ;;
  stock_data <- validate_file_to_write stock_data ;;
  s <- get_self ;;
  (if skip_writing s then ret tt
   else write_partitioned_stock_data stock_data) ;;
  create_save_stock_data_artifacts ;;
  s <- get_self ;;
  ret [api_artifacts s].

(** ** The classification as a value

    The second path of [validate_file_to_write] computes four ticker lists
    and the filtered frame in local variables.  [classify] gathers them in
    a record, from the same expressions; [validate_incremental] below shows
    that the method returns and records exactly these values. *)
Record Classification := mkClassification {
  c_new : list string;
  c_missing : list string;
  c_update : list string;
  c_current : list string;
  c_filtered : list Row
}.

Definition classify (stock_data : list Row)
    (mongo_ticker_dict : gmap string (option Z)) : outcome Classification :=
  let dict := df_latest_dates_dict stock_data in
  let tickers_df : gset string := dom dict in
  let tickers_mongo : gset string := dom mongo_ticker_dict in
  obind (classify_loop dict mongo_ticker_dict
           (elements (tickers_df ∩ tickers_mongo)) [] []) (λ uc,
    Ok (mkClassification
          (elements (tickers_df ∖ tickers_mongo))
          (elements (tickers_mongo ∖ tickers_df))
          uc.1 uc.2
          (filter (λ r, ¬ isin (ticker r) uc.2) stock_data))).

(** The attributes and the run artifact the second path leaves behind. *)
Definition skip_of (c : Classification) : bool :=
  match c_update c, c_new c with
  | [], [] => true
  | _, _ => false
  end.

Definition self_after_classification (c : Classification) (s : StockETL)
    : StockETL :=
  let s1 := set_tickers_new (c_new c) s in
  let s2 :=
    if skip_of c
    then set_api_artifact "WritingMode" "Data already up-to date. Write skipped"
           (set_skip_writing true s1)
    else set_api_artifact "WritingMode" (mode s) s1 in
  set_api_artifact "run_id" (run_id s)
    (set_api_artifact "ETLArtifacts" "ETL Artifacts added successfully" s2).

Definition world_after_classification (c : Classification) (s : StockETL)
    (w : World) : World :=
  set_ETLArtifacts
    (ETLArtifacts w ++
       [mkRunArtifact (run_id s) (c_missing c) (c_new c) (c_update c)
          (skip_of c || skip_writing s)]) w.

(** ** States the methods lead to, and notions used in the statements *)

(** What one round of the loop needs to go through: both sides hold a
    timestamp for the ticker. *)
Definition comparable (df_dict mongo_dict : gmap string (option Z))
    (t : string) : Prop :=
  ∃ a b, df_dict !! t = Some (Some a) ∧ mongo_dict !! t = Some (Some b).

(** The state the first path of [validate_file_to_write] leads to: the
    mode and two report entries set, the first run artifact added and a stub
    document stored for each distinct ticker of the input. *)
Definition state_after_bootstrap (stock_data : list Row) (st : State) : State :=
  mkState
    (set_api_artifact "run_id" (run_id (self st))
       (set_api_artifact "ETLArtifacts" "First artifacts created successfully"
          (set_mode "overwrite" (self st))))
    (set_StockDataArtifacts
       (foldl (λ docs t, <[t := stub_stats]> docs)
          (StockDataArtifacts (world st)) (distinct_tickers stock_data))
       (set_ETLArtifacts
          (ETLArtifacts (world st) ++
             [mkRunArtifact (run_id (self st)) [] (distinct_tickers stock_data)
                [] false]) (world st))).

(** The stored rows of one ticker within one year and month. *)
Definition scoped_rows (y m : Z) (t : string) (w : World) : list Row :=
  filter (λ r, ticker r = t ∧ year r = Some y ∧ month r = Some m) (StockData w).

(** The frame a later run hands to [update_stock_artifacts]. *)
Definition month_aggregated_df (st : State) : list (string * Stats) :=
  update_aggregated_df (tickers_new (self st))
    (read_stock_data (Some [self_year (self st)]) (Some [self_month (self st)])
       (world st)).

Definition state_after_update (st : State) : State :=
  mkState
    (set_api_artifact "StockDataArtifacts" "Artifacts updated successfully"
       (self st))
    (set_StockDataArtifacts
       (foldl upsert_stats (StockDataArtifacts (world st))
          (month_aggregated_df st)) (world st)).

(** The store is current for the input: every input ticker has a document
    whose [latest_date] is not before the ticker's input maximum. *)
Definition current_row (docs : gmap string Stats) (row : string * option Z)
    : bool :=
  match row.2, docs !! row.1 with
  | Some a, Some doc =>
      match latest_date doc with
      | Some b => a <=? b
      | None => false
      end
  | _, _ => false
  end.

Definition already_current (stock_data : list Row) (docs : gmap string Stats)
    : bool :=
  forallb (current_row docs) (df_latest_dates_list stock_data).

(** ** Sample data *)

Definition jan_31 : Z := timestamp_of 2024 1 31 16 0 0.
Definition feb_15 : Z := timestamp_of 2024 2 15 16 0 0.

Definition ex_record (ts : Z) : RawRecord :=
  mkRawRecord (Some ts) (Some (S754_finite false 369 (-1)))
    (Some (S754_finite false 186 0)) (Some (S754_finite false 183 0))
    (Some (S754_finite false 741 (-2))) (Some 52000).

Definition ex_folder : string := "data/2024-02-15".
Definition ex_folder_aapl : string := "data/aapl/2024-02-15".

Definition ex_files : list CsvFile :=
  [mkCsvFile "file:///data/2024-02-15/MSFT.csv" [ex_record feb_15];
   mkCsvFile "file:///data/2024-02-15/AAPL.csv"
     [ex_record jan_31; ex_record feb_15]].

Definition ex_files_aapl : list CsvFile :=
  [mkCsvFile "file:///data/aapl/2024-02-15/AAPL.csv" [ex_record feb_15]].

Definition ex_extract_date_from_path (path : string) : string * Z * Z :=
  ("2024-02-15", 2024, 2).

Definition ex_world (docs : gmap string Stats) (stored : list Row)
    (err : option string) : World :=
  mkWorld {[ex_folder := ex_files; ex_folder_aapl := ex_files_aapl]}
    stored err docs [].

Definition ex_self (folder : string) : StockETL :=
  mkStockETL folder "2024-02-15" 2024 2 "append" false [] ∅ "run-1".

Definition ex_row (t : string) (ts : Z) : Row :=
  prepare_row ("file:///data/2024-02-15/" +:+ t +:+ ".csv", ex_record ts).

(** The prepared input of [ex_folder] and of [ex_folder_aapl]. *)
Definition ex_stock_data : list Row :=
  [ex_row "AAPL" jan_31; ex_row "AAPL" feb_15; ex_row "MSFT" feb_15].

Definition ex_stock_data_aapl : list Row :=
  [prepare_row ("file:///data/aapl/2024-02-15/AAPL.csv", ex_record feb_15)].

(** Stored documents: AAPL as of January 31, and AAPL as of February 15. *)
Definition ex_docs_jan : gmap string Stats :=
  {["AAPL" := mkStats 1 (Some jan_31) (Some jan_31)]}.

Definition ex_docs_feb : gmap string Stats :=
  {["AAPL" := mkStats 2 (Some jan_31) (Some feb_15)]}.

(** One run of a fresh object over [ex_folder]. *)
Definition ex_run (w : World) : outcome (list (gmap string string)) * State :=
  run_etl (mkState (ex_self ex_folder) w).

Definition ex_after_first_run : State := (ex_run (ex_world ∅ [] None)).2.
Definition ex_after_second_run : State :=
  (ex_run (world ex_after_first_run)).2.
Definition ex_after_third_run : State :=
  (ex_run (world ex_after_second_run)).2.

Definition ex_state (folder : string) (docs : gmap string Stats)
    (stored : list Row) (err : option string) : State :=
  mkState (ex_self folder) (ex_world docs stored err).

Definition ex_loaded (folder : string) (docs : gmap string Stats)
    (stored : list Row) (err : option string) : State :=
  mkState (set_api_artifact "LoadingData" "Successful" (ex_self folder))
    (ex_world docs stored err).


Definition ex_c_current : Classification :=
  mkClassification [] [] [] ["AAPL"] [].

Definition ex_c_update : Classification :=
  mkClassification ["MSFT"] [] ["AAPL"] [] ex_stock_data.


Definition ex_c_mixed : Classification :=
  mkClassification ["MSFT"] [] [] ["AAPL"] [ex_row "MSFT" feb_15].

(** A later run in progress: MSFT has just been classified as new. *)
Definition ex_state_later : State :=
  mkState (set_tickers_new ["MSFT"] (ex_self ex_folder))
    (ex_world ex_docs_jan ex_stock_data None).

(** ** Notions used in the further properties *)

(** The string holds no slash. *)
Fixpoint no_slash (s : string) : bool :=
  match s with
  | EmptyString => true
  | String c rest => negb (Ascii.eqb c "/") && no_slash rest
  end.

(** The order of [orderBy("ticker", "date_time")] as a relation. *)
Definition row_le (r1 r2 : Row) : Prop := row_leb r1 r2 = true.

(** The records of a folder as the CSV read yields them. *)
Definition folder_records (files : list CsvFile) : list (string * RawRecord) :=
  files ≫= (λ f, (λ r, (file_name f, r)) <$> records f).

(** The total of the [row_count] column of an aggregated frame. *)
Definition total_row_count (aggregated_df : list (string * Stats)) : Z :=
  foldr (λ row acc, row_count row.2 + acc) 0 aggregated_df.

(** A folder whose only file holds no record. *)
Definition ex_empty_folder_state : State :=
  mkState (ex_self "data/empty")
    (mkWorld {["data/empty" := [mkCsvFile "file:///data/empty/AAPL.csv" []]]}
       ex_stock_data None ex_docs_feb []).

(** A folder whose only file, of the stored ticker AAPL, holds one record
    without a date. *)
Definition ex_undated_state : State :=
  mkState (ex_self "data/undated")
    (mkWorld
       {["data/undated" :=
           [mkCsvFile "file:///data/undated/AAPL.csv"
              [mkRawRecord None None None None None None]]]}
       ex_stock_data None ex_docs_feb []).

(** Unfolds the plumbing of the method monad. *)
Ltac unfold_monad :=
  repeat progress
    (unfold bind, ret, raise, lift, get_self, get_world, modify_self,
       modify_world, try_except; simpl).

(** * Part II: properties *)

(** ** The built-ins and the methods on the sample data *)

Example ex_calendar :
  civil_from_days (to_date (timestamp_of 2024 2 15 9 30 0)) = (2024, 2, 15)
  ∧ date_format_HH_mm_ss (timestamp_of 2024 2 15 9 30 0) = "09:30:00"
  ∧ regexp_extract_ticker "file:///data/2024-02/AAPL.csv" = "AAPL"
  ∧ regexp_extract_ticker "a/b.csv/c.csv.csv" = "c.csv"
  ∧ regexp_extract_ticker "a/b.csv/c" = "b"
  ∧ regexp_extract_ticker "AAPL.csv" = "".
Proof. vm_compute. repeat split. Qed.

Example ex_loader :
  read_prepare_input_files (mkState (ex_self ex_folder) (ex_world ∅ [] None))
  = (Ok ex_stock_data,
     mkState (set_api_artifact "LoadingData" "Successful" (ex_self ex_folder))
       (ex_world ∅ [] None))
  ∧ (λ r, (ticker r, year r, month r, time r)) <$> ex_stock_data
    = [("AAPL", Some 2024, Some 1, Some "16:00:00");
       ("AAPL", Some 2024, Some 2, Some "16:00:00");
       ("MSFT", Some 2024, Some 2, Some "16:00:00")].
Proof. split; vm_compute; reflexivity. Qed.

(** The first scenario of the spec: AAPL stored as of January 31, input with
    AAPL up to February 15 and the unknown ticker MSFT. *)
Example ex_scenario_update :
  classify ex_stock_data (latest_date <$> ex_docs_jan)
  = Ok (mkClassification ["MSFT"] [] ["AAPL"] [] ex_stock_data).
Proof. vm_compute. reflexivity. Qed.

(** The second scenario of the spec: AAPL stored as of February 15, and an
    input whose newest AAPL row is of that very instant. *)
Example ex_scenario_current :
  classify ex_stock_data_aapl (latest_date <$> ex_docs_feb)
  = Ok (mkClassification [] [] [] ["AAPL"] []).
Proof. vm_compute. reflexivity. Qed.

(** ** Facts about the aggregation built-ins *)

Section aggregation.
Context {R : Type} (key : R → string).

Lemma elem_of_distinct_keys (df : list R) (k : string) :
  k ∈ distinct_keys key df ↔ ∃ r, r ∈ df ∧ key r = k.
Proof.
  unfold distinct_keys. rewrite elem_of_remove_dups, list_elem_of_fmap.
  split; intros (r & H1 & H2); exists r; auto.
Qed.

Lemma NoDup_distinct_keys (df : list R) : NoDup (distinct_keys key df).
Proof. apply NoDup_remove_dups. Qed.

Lemma elem_of_group (df : list R) (k : string) (r : R) :
  r ∈ group key k df ↔ r ∈ df ∧ key r = k.
Proof. unfold group. rewrite list_elem_of_filter. tauto. Qed.

Lemma groupBy_keys {A} (agg : string → list R → A) (df : list R) :
  (groupBy key agg df).*1 = distinct_keys key df.
Proof.
  unfold groupBy.
  induction (distinct_keys key df) as [|k l IH]; [done|].
  rewrite !fmap_cons. simpl. by rewrite IH.
Qed.

Lemma NoDup_groupBy_keys {A} (agg : string → list R → A) (df : list R) :
  NoDup (groupBy key agg df).*1.
Proof. rewrite groupBy_keys. apply NoDup_distinct_keys. Qed.

Lemma elem_of_groupBy {A} (agg : string → list R → A) (df : list R)
    (k : string) (a : A) :
  (k, a) ∈ groupBy key agg df
  ↔ (∃ r, r ∈ df ∧ key r = k) ∧ a = agg k (group key k df).
Proof.
  unfold groupBy. rewrite list_elem_of_fmap, <- elem_of_distinct_keys.
  split.
  - intros (k' & [= -> ->] & Hk). done.
  - intros [Hk ->]. by exists k.
Qed.
End aggregation.

Lemma dict_of_rows_lookup {V} (rows : list (string * V)) (k : string) (v : V) :
  NoDup rows.*1 → dict_of_rows rows !! k = Some v ↔ (k, v) ∈ rows.
Proof.
  intros Hnd. unfold dict_of_rows.
  rewrite <- elem_of_list_to_map, elem_of_reverse; [done|].
  by rewrite fmap_reverse, reverse_Permutation.
Qed.

Lemma dict_of_rows_dom {V} (rows : list (string * V)) (k : string) :
  k ∈ dom (dict_of_rows rows) ↔ k ∈ rows.*1.
Proof.
  unfold dict_of_rows. rewrite dom_list_to_map_L, elem_of_list_to_set.
  by rewrite fmap_reverse, elem_of_reverse.
Qed.

Lemma sql_min_None (col : list (option Z)) :
  sql_min col = None ↔ ∀ v, v ∈ col → v = None.
Proof.
  induction col as [|v col IH]; simpl.
  - split; [|done]. intros _ v H. by apply elem_of_nil in H.
  - destruct v as [x|].
    + split.
      * destruct (sql_min col); discriminate.
      * intros H. specialize (H (Some x)). rewrite elem_of_cons in H.
        discriminate H. auto.
    + rewrite IH. split.
      * intros H v Hv. apply elem_of_cons in Hv as [->|?]; auto.
      * intros H v Hv. apply H, elem_of_cons. auto.
Qed.

Lemma sql_max_None (col : list (option Z)) :
  sql_max col = None ↔ ∀ v, v ∈ col → v = None.
Proof.
  induction col as [|v col IH]; simpl.
  - split; [|done]. intros _ v H. by apply elem_of_nil in H.
  - destruct v as [x|].
    + split.
      * destruct (sql_max col); discriminate.
      * intros H. specialize (H (Some x)). rewrite elem_of_cons in H.
        discriminate H. auto.
    + rewrite IH. split.
      * intros H v Hv. apply elem_of_cons in Hv as [->|?]; auto.
      * intros H v Hv. apply H, elem_of_cons. auto.
Qed.

Lemma sql_max_Some (col : list (option Z)) (d : Z) :
  sql_max col = Some d
  ↔ Some d ∈ col ∧ ∀ d', Some d' ∈ col → d' ≤ d.
Proof.
  revert d. induction col as [|v col IH]; intros d; simpl.
  - split; [done|]. intros [H _]. by apply elem_of_nil in H.
  - destruct v as [x|].
    + destruct (sql_max col) as [y|] eqn:E.
      * specialize (IH y). destruct IH as [IH _].
        destruct (IH eq_refl) as [Hy Hmax]. split.
        -- intros [= <-]. split.
           ++ destruct (Z.max_spec x y) as [[_ ->]|[_ ->]];
                rewrite elem_of_cons; auto.
           ++ intros d'. rewrite elem_of_cons. intros [[= ->]|H]; [lia|].
              specialize (Hmax _ H). lia.
        -- intros [Hd Hle]. f_equal.
           assert (x ≤ d) by (apply Hle; rewrite elem_of_cons; auto).
           assert (y ≤ d) by (apply Hle; rewrite elem_of_cons; auto).
           apply elem_of_cons in Hd as [[= ->]|Hd]; [lia|].
           specialize (Hmax _ Hd). lia.
      * assert (Hnone : ∀ d', Some d' ∉ col).
        { intros d' Hd'. by apply (proj1 (sql_max_None col) E) in Hd'. }
        split.
        -- intros [= <-]. split; [rewrite elem_of_cons; auto|].
           intros d'. rewrite elem_of_cons. intros [[= ->]|H]; [lia|].
           by apply Hnone in H.
        -- intros [Hd _]. apply elem_of_cons in Hd as [[= ->]|Hd]; [done|].
           by apply Hnone in Hd.
    + rewrite IH. split.
      * intros [H1 H2]. split; [apply elem_of_cons; auto|].
        intros d' Hd'. apply elem_of_cons in Hd' as [?|?]; [done|auto].
      * intros [H1 H2]. apply elem_of_cons in H1 as [?|H1]; [done|].
        split; [done|]. intros d' ?. apply H2, elem_of_cons. auto.
Qed.

Lemma sql_min_Some (col : list (option Z)) (d : Z) :
  sql_min col = Some d
  ↔ Some d ∈ col ∧ ∀ d', Some d' ∈ col → d ≤ d'.
Proof.
  revert d. induction col as [|v col IH]; intros d; simpl.
  - split; [done|]. intros [H _]. by apply elem_of_nil in H.
  - destruct v as [x|].
    + destruct (sql_min col) as [y|] eqn:E.
      * destruct (proj1 (IH y) eq_refl) as [Hy Hmin]. split.
        -- intros [= <-]. split.
           ++ destruct (Z.min_spec x y) as [[_ ->]|[_ ->]];
                rewrite elem_of_cons; auto.
           ++ intros d' Hd'. apply elem_of_cons in Hd' as [[= ->]|H]; [lia|].
              specialize (Hmin _ H). lia.
        -- intros [Hd Hle]. f_equal.
           assert (d ≤ x) by (apply Hle; rewrite elem_of_cons; auto).
           assert (d ≤ y) by (apply Hle; rewrite elem_of_cons; auto).
           apply elem_of_cons in Hd as [[= ->]|Hd]; [lia|].
           specialize (Hmin _ Hd). lia.
      * assert (Hnone : ∀ d', Some d' ∉ col).
        { intros d' Hd'. by apply (proj1 (sql_min_None col) E) in Hd'. }
        split.
        -- intros [= <-]. split; [rewrite elem_of_cons; auto|].
           intros d' Hd'. apply elem_of_cons in Hd' as [[= ->]|H]; [lia|].
           by apply Hnone in H.
        -- intros [Hd _]. apply elem_of_cons in Hd as [[= ->]|Hd]; [done|].
           by apply Hnone in Hd.
    + rewrite IH. split.
      * intros [H1 H2]. split; [apply elem_of_cons; auto|].
        intros d' Hd'. apply elem_of_cons in Hd' as [?|?]; [done|auto].
      * intros [H1 H2]. apply elem_of_cons in H1 as [?|H1]; [done|].
        split; [done|]. intros d' ?. apply H2, elem_of_cons. auto.
Qed.

(** ** Facts about the classification *)

Lemma df_latest_dates_dict_lookup (stock_data : list Row) (t : string)
    (v : option Z) :
  df_latest_dates_dict stock_data !! t = Some v
  ↔ (∃ r, r ∈ stock_data ∧ ticker r = t)
    ∧ v = sql_max (date_time <$> group ticker t stock_data).
Proof.
  unfold df_latest_dates_dict, df_latest_dates_list.
  rewrite dict_of_rows_lookup by apply NoDup_groupBy_keys.
  by rewrite elem_of_groupBy.
Qed.

Lemma df_latest_dates_dict_dom (stock_data : list Row) (t : string) :
  t ∈ dom (df_latest_dates_dict stock_data)
  ↔ ∃ r, r ∈ stock_data ∧ ticker r = t.
Proof.
  unfold df_latest_dates_dict, df_latest_dates_list.
  rewrite dict_of_rows_dom, groupBy_keys. apply elem_of_distinct_keys.
Qed.

Lemma classify_loop_Ok (df_dict mongo_dict : gmap string (option Z))
    (tickers upd cur upd' cur' : list string) :
  classify_loop df_dict mongo_dict tickers upd cur = Ok (upd', cur') →
  (∀ t, t ∈ tickers → comparable df_dict mongo_dict t)
  ∧ (∀ t, t ∈ upd' ↔ t ∈ upd ∨ (t ∈ tickers ∧ ∃ a b,
        df_dict !! t = Some (Some a) ∧ mongo_dict !! t = Some (Some b)
        ∧ b < a))
  ∧ (∀ t, t ∈ cur' ↔ t ∈ cur ∨ (t ∈ tickers ∧ ∃ a b,
        df_dict !! t = Some (Some a) ∧ mongo_dict !! t = Some (Some b)
        ∧ a ≤ b)).
Proof.
  revert upd cur. induction tickers as [|t0 rest IH]; intros upd cur; simpl.
  - intros [= <- <-]. split; [|split].
    + intros t H. by apply elem_of_nil in H.
    + intros t. split; [auto|]. intros [?|[H _]]; [done|].
      by apply elem_of_nil in H.
    + intros t. split; [auto|]. intros [?|[H _]]; [done|].
      by apply elem_of_nil in H.
  - unfold getitem.
    destruct (df_dict !! t0) as [[a|]|] eqn:Ea; simpl; try discriminate;
      destruct (mongo_dict !! t0) as [[b|]|] eqn:Eb; simpl; try discriminate.
    destruct (a <=? b) eqn:Eab; intros Hloop;
      apply IH in Hloop as (Hc & Hu & Hcur);
      (split; [|split]).
    + intros t Ht. apply elem_of_cons in Ht as [->|?]; [|auto].
      by exists a, b.
    + intros t. rewrite Hu. split.
      * intros [?|[? ?]]; [auto|]. right. split; [|done].
        apply elem_of_cons; auto.
      * intros [?|[Ht (a' & b' & H1 & H2 & H3)]]; [auto|].
        apply elem_of_cons in Ht as [->|?].
        -- rewrite Ea in H1. rewrite Eb in H2.
           injection H1 as <-. injection H2 as <-.
           apply Z.leb_le in Eab. lia.
        -- right. split; [done|]. by exists a', b'.
    + intros t. rewrite Hcur, elem_of_app, list_elem_of_singleton. split.
      * intros [[?| ->]|[? ?]]; [auto| |].
        -- right. split; [apply elem_of_cons; auto|].
           exists a, b. apply Z.leb_le in Eab. auto.
        -- right. split; [apply elem_of_cons; auto|done].
      * intros [?|[Ht H]]; [auto|].
        apply elem_of_cons in Ht as [->|?]; [auto|].
        right. by split.
    + intros t Ht. apply elem_of_cons in Ht as [->|?]; [|auto].
      by exists a, b.
    + intros t. rewrite Hu, elem_of_app, list_elem_of_singleton. split.
      * intros [[?| ->]|[? ?]]; [auto| |].
        -- right. split; [apply elem_of_cons; auto|].
           exists a, b. apply Z.leb_gt in Eab. auto.
        -- right. split; [apply elem_of_cons; auto|done].
      * intros [?|[Ht H]]; [auto|].
        apply elem_of_cons in Ht as [->|?]; [auto|].
        right. by split.
    + intros t. rewrite Hcur. split.
      * intros [?|[? ?]]; [auto|]. right. split; [|done].
        apply elem_of_cons; auto.
      * intros [?|[Ht (a' & b' & H1 & H2 & H3)]]; [auto|].
        apply elem_of_cons in Ht as [->|?].
        -- rewrite Ea in H1. rewrite Eb in H2.
           injection H1 as <-. injection H2 as <-.
           apply Z.leb_gt in Eab. lia.
        -- right. split; [done|]. by exists a', b'.
Qed.

Lemma classify_loop_total (df_dict mongo_dict : gmap string (option Z))
    (tickers upd cur : list string) :
  (∀ t, t ∈ tickers → comparable df_dict mongo_dict t) →
  ∃ uc, classify_loop df_dict mongo_dict tickers upd cur = Ok uc.
Proof.
  revert upd cur. induction tickers as [|t0 rest IH]; intros upd cur H; simpl.
  - by eexists.
  - destruct (H t0) as (a & b & Ha & Hb); [apply elem_of_cons; auto|].
    unfold getitem. rewrite Ha, Hb. simpl.
    destruct (a <=? b); apply IH; intros t Ht; apply H, elem_of_cons; auto.
Qed.

Lemma classify_total (stock_data : list Row)
    (mongo_ticker_dict : gmap string (option Z)) :
  (∀ t, t ∈ dom (df_latest_dates_dict stock_data) →
        t ∈ dom mongo_ticker_dict →
        comparable (df_latest_dates_dict stock_data) mongo_ticker_dict t) →
  ∃ c, classify stock_data mongo_ticker_dict = Ok c.
Proof.
  intros H. unfold classify.
  destruct (classify_loop_total (df_latest_dates_dict stock_data)
              mongo_ticker_dict
              (elements (dom (df_latest_dates_dict stock_data)
                           ∩ dom mongo_ticker_dict)) [] []) as [uc Huc].
  - intros t Ht. apply elem_of_elements, elem_of_intersection in Ht as [? ?].
    by apply H.
  - rewrite Huc. simpl. by eexists.
Qed.

(** The classification in terms of the two dicts. *)
Lemma classify_spec (stock_data : list Row)
    (mongo_ticker_dict : gmap string (option Z)) (c : Classification) :
  classify stock_data mongo_ticker_dict = Ok c →
  (∀ t, t ∈ c_new c ↔ t ∈ dom (df_latest_dates_dict stock_data)
                       ∧ t ∉ dom mongo_ticker_dict)
  ∧ (∀ t, t ∈ c_missing c ↔ t ∈ dom mongo_ticker_dict
                             ∧ t ∉ dom (df_latest_dates_dict stock_data))
  ∧ (∀ t, t ∈ c_update c ↔ ∃ a b,
        df_latest_dates_dict stock_data !! t = Some (Some a)
        ∧ mongo_ticker_dict !! t = Some (Some b) ∧ b < a)
  ∧ (∀ t, t ∈ c_current c ↔ ∃ a b,
        df_latest_dates_dict stock_data !! t = Some (Some a)
        ∧ mongo_ticker_dict !! t = Some (Some b) ∧ a ≤ b)
  ∧ (∀ t, t ∈ dom (df_latest_dates_dict stock_data) →
          t ∈ dom mongo_ticker_dict →
          comparable (df_latest_dates_dict stock_data) mongo_ticker_dict t)
  ∧ c_filtered c = filter (λ r, ticker r ∉ c_current c) stock_data.
Proof.
  unfold classify. generalize (df_latest_dates_dict stock_data) as dict.
  intros dict H.
  destruct (classify_loop dict mongo_ticker_dict
              (elements (dom dict ∩ dom mongo_ticker_dict)) [] [])
    as [[upd cur]|e] eqn:E; simpl in H; [|discriminate].
  injection H as <-. simpl.
  apply classify_loop_Ok in E as (Hc & Hu & Hcur).
  assert (Hin : ∀ t a b, dict !! t = Some a → mongo_ticker_dict !! t = Some b →
                         t ∈ elements (dom dict ∩ dom mongo_ticker_dict)).
  { intros t a b Ha Hb.
    apply elem_of_elements, elem_of_intersection. split; by apply elem_of_dom. }
  split; [|split; [|split; [|split; [|split]]]].
  - intros t. by rewrite elem_of_elements, elem_of_difference.
  - intros t. by rewrite elem_of_elements, elem_of_difference.
  - intros t. rewrite Hu. split.
    + intros [H|[_ H]]; [by apply elem_of_nil in H|done].
    + intros (a & b & Ha & Hb & Hlt). right. split; [by eapply Hin|].
      by exists a, b.
  - intros t. rewrite Hcur. split.
    + intros [H|[_ H]]; [by apply elem_of_nil in H|done].
    + intros (a & b & Ha & Hb & Hlt). right. split; [by eapply Hin|].
      by exists a, b.
  - intros t H1 H2. apply Hc, elem_of_elements, elem_of_intersection. done.
  - apply list_filter_iff. intros r. unfold isin.
    by rewrite bool_decide_spec.
Qed.

(** ** What [validate_file_to_write] does on each of its two paths *)

Lemma validate_bootstrap (stock_data : list Row) (st : State) :
  StockDataArtifacts (world st) = ∅ →
  validate_file_to_write stock_data st
  = (Ok stock_data, state_after_bootstrap stock_data st).
Proof.
  intros H. unfold validate_file_to_write, bind, export_ticker_data_from_mongo.
  rewrite H, fmap_empty. destruct (decide _) as [_|Hne]; [|done].
  reflexivity.
Qed.

Lemma validate_incremental (stock_data : list Row) (st : State)
    (c : Classification) :
  StockDataArtifacts (world st) ≠ ∅ →
  classify stock_data (latest_date <$> StockDataArtifacts (world st)) = Ok c →
  validate_file_to_write stock_data st
  = (Ok (c_filtered c),
     mkState (self_after_classification c (self st))
       (world_after_classification c (self st) (world st))).
Proof.
  intros Hne Hc.
  unfold validate_file_to_write, bind, export_ticker_data_from_mongo.
  destruct (decide _) as [He|_]; [by apply fmap_empty_inv in He|].
  unfold classify in Hc. simpl. unfold lift.
  destruct (classify_loop _ _ _ [] []) as [[upd cur]|e]; simpl in Hc;
    [|discriminate].
  injection Hc as <-. simpl.
  unfold self_after_classification, world_after_classification, skip_of.
  simpl. destruct upd as [|u upd]; simpl.
  - destruct (elements _) as [|n new]; reflexivity.
  - reflexivity.
Qed.

(** ** Facts about the aggregation and the upsert *)

Lemma in_scope_single (y : Z) (v : option Z) :
  in_scope (Some [y]) v = true ↔ v = Some y.
Proof.
  destruct v as [x|]; simpl; [|done].
  rewrite bool_decide_eq_true, list_elem_of_singleton.
  split; [by intros ->|by intros [= ->]].
Qed.

Lemma filter_fmap_key {A B} (f : A → B) (P : B → Prop)
    `{!∀ x, Decision (P x)} (l : list A) :
  filter P (f <$> l) = f <$> filter (λ x, P (f x)) l.
Proof.
  induction l as [|x l IH]; [done|].
  rewrite fmap_cons, !filter_cons, IH.
  destruct (decide (P (f x))); [by rewrite fmap_cons|done].
Qed.

Lemma group_read_stock_data (y m : Z) (t : string) (w : World) :
  group fst t (read_stock_data (Some [y]) (Some [m]) w)
  = (λ r, (ticker r, date_time r)) <$> scoped_rows y m t w.
Proof.
  unfold group, read_stock_data, scoped_rows.
  rewrite filter_fmap_key, list_filter_filter. f_equal.
  apply list_filter_iff. intros r. cbv beta.
  rewrite andb_True, !Is_true_true, !in_scope_single. tauto.
Qed.

Lemma elem_of_read_stock_data_keys (y m : Z) (t : string) (w : World) :
  (∃ r, r ∈ read_stock_data (Some [y]) (Some [m]) w ∧ r.1 = t)
  ↔ scoped_rows y m t w ≠ [].
Proof.
  split.
  - intros (r & Hr & Ht) Hnil.
    assert (r ∈ group fst t (read_stock_data (Some [y]) (Some [m]) w))
      as Hg by (by apply elem_of_group).
    rewrite group_read_stock_data, Hnil in Hg. by apply elem_of_nil in Hg.
  - intros Hne. destruct (scoped_rows y m t w) as [|r l] eqn:E; [done|].
    exists (ticker r, date_time r).
    assert ((ticker r, date_time r)
            ∈ group fst t (read_stock_data (Some [y]) (Some [m]) w)) as Hg.
    { rewrite group_read_stock_data, E, fmap_cons. apply elem_of_cons; auto. }
    apply elem_of_group in Hg as [? ?]. done.
Qed.

Lemma elem_of_month_aggregated_df (st : State) (t : string) (stats : Stats) :
  (t, stats) ∈ month_aggregated_df st
  ↔ scoped_rows (self_year (self st)) (self_month (self st)) t (world st) ≠ []
    ∧ stats =
      let rows :=
        scoped_rows (self_year (self st)) (self_month (self st)) t (world st) in
      mkStats (Z.of_nat (length rows))
        (sql_min ((λ r, when (isin (ticker r) (tickers_new (self st)))
                          (date_time r)) <$> rows))
        (sql_max (date_time <$> rows)).
Proof.
  unfold month_aggregated_df, update_aggregated_df.
  rewrite elem_of_groupBy, elem_of_read_stock_data_keys.
  rewrite group_read_stock_data. simpl.
  rewrite length_fmap, <- !list_fmap_compose. done.
Qed.

Lemma NoDup_month_aggregated_df (st : State) :
  NoDup (month_aggregated_df st).*1.
Proof. apply NoDup_groupBy_keys. Qed.

Lemma upsert_stats_lookup_ne (docs : gmap string Stats) (row : string * Stats)
    (t : string) :
  row.1 ≠ t → upsert_stats docs row !! t = docs !! t.
Proof.
  intros Hne. unfold upsert_stats.
  destruct (docs !! row.1); by rewrite lookup_insert_ne.
Qed.

Lemma upsert_stats_lookup_eq (docs : gmap string Stats) (row : string * Stats) :
  upsert_stats docs row !! row.1
  = Some (match docs !! row.1 with
          | None => row.2
          | Some stored => merge_stats stored row.2
          end).
Proof.
  unfold upsert_stats. destruct (docs !! row.1); by rewrite lookup_insert_eq.
Qed.

Lemma foldl_upsert_lookup_notin (rows : list (string * Stats))
    (docs : gmap string Stats) (t : string) :
  t ∉ rows.*1 → foldl upsert_stats docs rows !! t = docs !! t.
Proof.
  revert docs. induction rows as [|row rows IH]; intros docs Hnotin; [done|].
  rewrite fmap_cons, not_elem_of_cons in Hnotin. destruct Hnotin as [Hne Hn].
  simpl. rewrite IH by done. by apply upsert_stats_lookup_ne.
Qed.

Lemma foldl_upsert_lookup_in (rows : list (string * Stats))
    (docs : gmap string Stats) (t : string) (agg : Stats) :
  NoDup rows.*1 → (t, agg) ∈ rows →
  foldl upsert_stats docs rows !! t
  = Some (match docs !! t with
          | None => agg
          | Some stored => merge_stats stored agg
          end).
Proof.
  revert docs. induction rows as [|row rows IH]; intros docs Hnd Hin.
  - by apply elem_of_nil in Hin.
  - rewrite fmap_cons in Hnd. apply NoDup_cons in Hnd as [Hnotin Hnd].
    simpl. apply elem_of_cons in Hin as [<-|Hin].
    + rewrite foldl_upsert_lookup_notin by done.
      apply (upsert_stats_lookup_eq docs (t, agg)).
    + assert (row.1 ≠ t) as Hne.
      { intros <-. apply Hnotin, list_elem_of_fmap. by exists (row.1, agg). }
      rewrite (IH _ Hnd Hin). by rewrite upsert_stats_lookup_ne.
Qed.

Lemma create_save_incremental (st : State) :
  mode (self st) ≠ "overwrite" →
  create_save_stock_data_artifacts st = (Ok tt, state_after_update st).
Proof.
  intros Hmode. unfold create_save_stock_data_artifacts, bind. simpl.
  apply String.eqb_neq in Hmode. rewrite Hmode. reflexivity.
Qed.

(** ** The orchestration *)

Lemma insert_row_not_nil (r : Row) (l : list Row) : insert_row r l ≠ [].
Proof. destruct l as [|x l]; simpl; [done|]. by destruct (row_leb r x). Qed.

Lemma orderBy_not_nil (df : list Row) :
  df ≠ [] → orderBy_ticker_date_time df ≠ [].
Proof.
  destruct df as [|r df]; [done|]. intros _. simpl. apply insert_row_not_nil.
Qed.

(** The loader, case by case. *)
Lemma read_prepare_input_files_eq (st : State) :
  read_prepare_input_files st
  = match folders (world st) !! input_folder_path (self st) with
    | Some (f :: files) =>
        match folder_records (f :: files) with
        | [] =>
            (Raise (Exception ("The Stock Data in '"
                                 +:+ input_folder_path (self st)
                                 +:+ "' is empty.")), st)
        | fr :: frs =>
            (Ok (orderBy_ticker_date_time (prepare_row <$> fr :: frs)),
             mkState (set_api_artifact "LoadingData" "Successful" (self st))
               (world st))
        end
    | Some [] | None =>
        (Raise (AnalysisException ("Path does not exist: "
                                     +:+ input_folder_path (self st)
                                     +:+ "/*")), st)
    end.
Proof.
  unfold read_prepare_input_files, spark_read_csv, bind, get_self, get_world.
  destruct st as [s w]. cbn [self world].
  destruct (folders w !! input_folder_path s) as [[|f files]|];
    [reflexivity| |reflexivity].
  unfold ret at 1. fold (folder_records (f :: files)).
  destruct (folder_records (f :: files)) as [|fr frs]; reflexivity.
Qed.

Lemma read_prepare_input_files_Ok (st st0 : State) (df : list Row) :
  read_prepare_input_files st = (Ok df, st0) →
  st0 = mkState (set_api_artifact "LoadingData" "Successful" (self st))
          (world st)
  ∧ df ≠ [].
Proof.
  rewrite read_prepare_input_files_eq.
  destruct (folders (world st) !! input_folder_path (self st))
    as [[|f files]|]; [discriminate| |discriminate].
  destruct (folder_records (f :: files)) as [|fr frs]; [discriminate|].
  intros [= <- <-]. split; [done|]. apply insert_row_not_nil.
Qed.

Lemma stubs_lookup (docs : gmap string Stats) (ts : list string) (t : string) :
  foldl (λ docs t, <[t := stub_stats]> docs) docs ts !! t
  = if decide (t ∈ ts) then Some stub_stats else docs !! t.
Proof.
  revert docs. induction ts as [|t0 ts IH]; intros docs; cbn [foldl].
  - rewrite decide_False; [done|]. apply not_elem_of_nil.
  - rewrite IH. destruct (decide (t ∈ ts)) as [Hin|Hout].
    + rewrite decide_True; [done|]. apply elem_of_cons; auto.
    + destruct (decide (t = t0)) as [->|Hne].
      * rewrite lookup_insert_eq, decide_True; [done|].
        apply elem_of_cons; auto.
      * rewrite lookup_insert_ne by done. rewrite decide_False; [done|].
        intros [?|?]%elem_of_cons; done.
Qed.

(** [validate_file_to_write] leaves the stored data and the input folders
    alone.  Of the per-ticker documents it changes none: when there are
    documents it leaves the collection as it is, and when there are none it
    adds stubs only. *)
Lemma validate_file_to_write_world (stock_data : list Row) (st st' : State)
    (o : outcome (list Row)) :
  validate_file_to_write stock_data st = (o, st') →
  StockData (world st') = StockData (world st)
  ∧ storage_error (world st') = storage_error (world st)
  ∧ folders (world st') = folders (world st)
  ∧ (StockDataArtifacts (world st) ≠ ∅ →
     StockDataArtifacts (world st') = StockDataArtifacts (world st))
  ∧ (∀ t doc, StockDataArtifacts (world st) !! t = Some doc →
              StockDataArtifacts (world st') !! t = Some doc)
  ∧ (∀ t doc, StockDataArtifacts (world st') !! t = Some doc →
              StockDataArtifacts (world st) !! t = Some doc ∨ doc = stub_stats).
Proof.
  unfold validate_file_to_write, bind, export_ticker_data_from_mongo.
  destruct (decide _) as [He|Hne]; simpl.
  - apply fmap_empty_inv in He. intros [= <- <-]. cbn. rewrite He.
    repeat split; try done.
    intros t doc. rewrite stubs_lookup.
    destruct (decide _); [intros [= <-]; by right|by left].
  - unfold lift. destruct (classify_loop _ _ _ [] []) as [[upd cur]|e]; simpl.
    + destruct upd as [|u upd];
        [destruct (elements _) as [|n new]|]; intros [= <- <-]; cbn;
        repeat split; auto.
    + intros [= <- <-]; cbn; repeat split; auto.
Qed.

Lemma write_partitioned_stock_data_fails (stock_data : list Row) (st : State)
    (e : string) :
  storage_error (world st) = Some e →
  write_partitioned_stock_data stock_data st
  = (Raise (Exception ("Could not save data in StockData. ERROR: " +:+ e)), st).
Proof.
  intros H.
  unfold write_partitioned_stock_data, spark_write_parquet. unfold_monad.
  rewrite H. by unfold_monad.
Qed.

Lemma init_Ok (extract_date_from_path : string → string * Z * Z)
    (rid path : string) (w : World) (s : StockETL) :
  __init__ extract_date_from_path rid path w = Ok s →
  ∃ d y m, s = mkStockETL path d y m "append" false [] ∅ rid.
Proof.
  unfold __init__, _validate_input_folder.
  destruct (folders w !! path); simpl; [|discriminate].
  destruct (extract_date_from_path path) as [[d y] m].
  intros [= <-]. by exists d, y, m.
Qed.

Lemma run_etl_steps (st st0 st1 : State) (df fdf : list Row) :
  read_prepare_input_files st = (Ok df, st0) →
  validate_file_to_write df st0 = (Ok fdf, st1) →
  run_etl st
  = if skip_writing (self st1)
    then (create_save_stock_data_artifacts ;;
          s <- get_self ;; ret [api_artifacts s]) st1
    else (write_partitioned_stock_data fdf ;;
          create_save_stock_data_artifacts ;;
          s <- get_self ;; ret [api_artifacts s]) st1.
Proof.
  intros H0 H1. unfold run_etl. unfold bind at 1. rewrite H0.
  unfold bind at 1. rewrite H1. unfold bind at 1. unfold get_self at 1.
  unfold bind at 1. destruct (skip_writing (self st1)); reflexivity.
Qed.

Lemma classify_current_disjoint (stock_data : list Row)
    (mongo_ticker_dict : gmap string (option Z)) (c : Classification) :
  classify stock_data mongo_ticker_dict = Ok c →
  c_new c ## c_current c ∧ c_update c ## c_current c.
Proof.
  intros Hc.
  apply classify_spec in Hc as (Hn & _ & Hu & Hcur & _ & _). split.
  - intros t [_ H1]%Hn (a & b & _ & Hb & _)%Hcur.
    apply H1, elem_of_dom. by eexists.
  - intros t (a & b & Ha & Hb & Hlt)%Hu (a' & b' & Ha' & Hb' & Hle)%Hcur.
    rewrite Ha in Ha'. rewrite Hb in Hb'.
    injection Ha' as <-. injection Hb' as <-. lia.
Qed.

Lemma fmap_ext_in {A B} (f g : A → B) (l : list A) :
  (∀ x, x ∈ l → f x = g x) → f <$> l = g <$> l.
Proof.
  induction l as [|x l IH]; intros H; [done|].
  rewrite !fmap_cons, (H x), IH; [done| |apply elem_of_cons; auto].
  intros x' Hx'. apply H, elem_of_cons. auto.
Qed.

Lemma elem_of_scoped_rows (y m : Z) (t : string) (w : World) (r : Row) :
  r ∈ scoped_rows y m t w → ticker r = t.
Proof. unfold scoped_rows. by intros [(? & _) _]%list_elem_of_filter. Qed.

(** The aggregated minimum, by membership of the ticker in [tickers_new]. *)
Lemma month_aggregated_oldest_date (st : State) (t : string) (stats : Stats) :
  (t, stats) ∈ month_aggregated_df st →
  oldest_date stats
  = if decide (t ∈ tickers_new (self st))
    then sql_min (date_time <$>
                    scoped_rows (self_year (self st)) (self_month (self st)) t
                      (world st))
    else None.
Proof.
  intros [_ ->]%elem_of_month_aggregated_df. cbn [oldest_date].
  destruct (decide (t ∈ tickers_new (self st))) as [Hin|Hnin].
  - f_equal. apply fmap_ext_in. intros r ->%elem_of_scoped_rows.
    unfold when, isin. by rewrite bool_decide_eq_true_2.
  - apply sql_min_None. intros v (r & -> & Hr)%list_elem_of_fmap.
    apply elem_of_scoped_rows in Hr as ->.
    unfold when, isin. by rewrite bool_decide_eq_false_2.
Qed.

(** ** Re-running on a store that is already current *)

Lemma already_current_lookup (stock_data : list Row) (docs : gmap string Stats)
    (t : string) :
  already_current stock_data docs = true →
  t ∈ dom (df_latest_dates_dict stock_data) →
  ∃ a b, df_latest_dates_dict stock_data !! t = Some (Some a)
         ∧ (latest_date <$> docs) !! t = Some (Some b) ∧ a ≤ b.
Proof.
  intros Hall [v Hv]%elem_of_dom.
  assert ((t, v) ∈ df_latest_dates_list stock_data) as Hin.
  { apply dict_of_rows_lookup; [apply NoDup_groupBy_keys|done]. }
  unfold already_current in Hall. rewrite forallb_forall in Hall.
  apply list_elem_of_In, Hall in Hin. unfold current_row in Hin.
  cbn [fst snd] in Hin. destruct v as [a|]; [|done].
  destruct (docs !! t) as [doc|] eqn:Hdoc; [|done].
  destruct (latest_date doc) as [b|] eqn:Hb; [|done].
  exists a, b. rewrite lookup_fmap, Hdoc. cbn. rewrite Hb.
  apply Z.leb_le in Hin. done.
Qed.

Lemma already_current_classify (stock_data : list Row)
    (docs : gmap string Stats) :
  stock_data ≠ [] →
  already_current stock_data docs = true →
  docs ≠ ∅
  ∧ ∃ c, classify stock_data (latest_date <$> docs) = Ok c
         ∧ c_new c = [] ∧ c_update c = [].
Proof.
  intros Hne Hall. split.
  - destruct stock_data as [|r l]; [done|].
    destruct (already_current_lookup _ docs (ticker r) Hall)
      as (a & b & _ & Hb & _).
    { apply df_latest_dates_dict_dom. exists r. split; [|done].
      apply elem_of_cons; auto. }
    intros ->. by rewrite fmap_empty, lookup_empty in Hb.
  - destruct (classify_total stock_data (latest_date <$> docs)) as [c Hc].
    { intros t Ht _.
      destruct (already_current_lookup _ docs t Hall Ht)
        as (a & b & Ha & Hb & _).
      by exists a, b. }
    exists c. split; [done|].
    destruct (classify_spec _ _ _ Hc) as (Hn & _ & Hu & _).
    split; apply elem_of_nil_inv; intros t.
    + intros [Hd Hnd]%Hn.
      destruct (already_current_lookup _ docs t Hall Hd)
        as (a & b & _ & Hb & _).
      apply Hnd, elem_of_dom. by eexists.
    + intros (a & b & Ha & Hb & Hlt)%Hu.
      destruct (already_current_lookup _ docs t Hall)
        as (a' & b' & Ha' & Hb' & Hle).
      { apply elem_of_dom. by eexists. }
      rewrite Ha in Ha'. rewrite Hb in Hb'.
      injection Ha' as <-. injection Hb' as <-. lia.
Qed.

(** * Part III: the claims *)

(** C1 (bootstrap).  When no per-ticker document is stored, the
    classification of any input returns the input unchanged, switches the
    write mode to overwrite and creates the first run artifact, in which
    the new tickers are the distinct tickers of the input, each once, and
    one per-ticker stub document for each of them: afterwards the
    collection of per-ticker documents holds a stub, without row count and
    dates, for exactly the distinct tickers of the input.  The attributes
    [skip_writing] and [tickers_new] and the stored data are not
    touched. *)
Theorem C1_bootstrap (stock_data : list Row) (st : State) :
  StockDataArtifacts (world st) = ∅ →
  ∃ st',
    validate_file_to_write stock_data st = (Ok stock_data, st')
    ∧ mode (self st') = "overwrite"
    ∧ skip_writing (self st') = skip_writing (self st)
    ∧ tickers_new (self st') = tickers_new (self st)
    ∧ ETLArtifacts (world st')
      = (ETLArtifacts (world st) ++
           [mkRunArtifact (run_id (self st)) [] (distinct_tickers stock_data)
              [] false])%list
    ∧ NoDup (distinct_tickers stock_data)
    ∧ (∀ t, t ∈ distinct_tickers stock_data
            ↔ ∃ r, r ∈ stock_data ∧ ticker r = t)
    ∧ StockData (world st') = StockData (world st)
    ∧ (∀ t, StockDataArtifacts (world st') !! t
            = if decide (t ∈ distinct_tickers stock_data)
              then Some stub_stats else None).
Proof.
  intros H. exists (state_after_bootstrap stock_data st).
  split; [by apply validate_bootstrap|].
  repeat split; try done.
  - apply NoDup_distinct_keys.
  - by intros ?%elem_of_distinct_keys.
  - by intros ?%elem_of_distinct_keys.
  - intros t. cbn. rewrite stubs_lookup, H.
    by destruct (decide _).
Qed.

(** C1 on the sample input and an empty store. *)
Lemma C1_bootstrap_witness :
  StockDataArtifacts (world (ex_state ex_folder ∅ [] None)) = ∅
  ∧ ∃ st',
      validate_file_to_write ex_stock_data (ex_state ex_folder ∅ [] None)
      = (Ok ex_stock_data, st')
      ∧ mode (self st') = "overwrite"
      ∧ ETLArtifacts (world st')
        = [mkRunArtifact "run-1" [] (distinct_tickers ex_stock_data) [] false]
      ∧ StockDataArtifacts (world st') !! "MSFT" = Some stub_stats
      ∧ StockDataArtifacts (world st') !! "IBM" = None.
Proof.
  split; [reflexivity|].
  destruct (C1_bootstrap ex_stock_data (ex_state ex_folder ∅ [] None) eq_refl)
    as (st' & H1 & H2 & _ & _ & H3 & _ & _ & _ & H4).
  exists st'. split; [exact H1|]. split; [exact H2|]. split; [exact H3|].
  split; [exact (H4 "MSFT")|exact (H4 "IBM")].
Defined.





(** C4 (filter).  On the path with stored documents, the frame the method
    returns is the input without the rows of current tickers, in the input's
    order; every row of a new or updated ticker is in it. *)
Theorem C4_filtered (stock_data : list Row) (st : State) (c : Classification) :
  StockDataArtifacts (world st) ≠ ∅ →
  classify stock_data (latest_date <$> StockDataArtifacts (world st)) = Ok c →
  ∃ st',
    validate_file_to_write stock_data st
    = (Ok (filter (λ r, ticker r ∉ c_current c) stock_data), st')
    ∧ (∀ r, r ∈ stock_data → ticker r ∈ c_new c ∨ ticker r ∈ c_update c →
            r ∈ filter (λ r, ticker r ∉ c_current c) stock_data)
    ∧ (∀ r, r ∈ stock_data → ticker r ∈ c_current c →
            r ∉ filter (λ r, ticker r ∉ c_current c) stock_data).
Proof.
  intros Hne Hc. eexists. split.
  - rewrite (validate_incremental _ _ _ Hne Hc).
    by destruct (classify_spec _ _ _ Hc) as (_ & _ & _ & _ & _ & ->).
  - destruct (classify_current_disjoint stock_data _ c Hc) as [Hnc Huc]. split.
    + intros r Hr Hnu. apply list_elem_of_filter. split; [|done].
      intros Hcur. destruct Hnu as [?|?]; [by eapply Hnc|by eapply Huc].
    + intros r Hr Hcur [Hn _]%list_elem_of_filter. done.
Qed.

(** C4 on a run where AAPL is current and MSFT is new. *)
Lemma C4_filtered_witness :
  StockDataArtifacts (world (ex_state ex_folder ex_docs_feb [] None)) ≠ ∅
  ∧ classify ex_stock_data
      (latest_date <$>
         StockDataArtifacts (world (ex_state ex_folder ex_docs_feb [] None)))
    = Ok ex_c_mixed
  ∧ ∃ st',
      validate_file_to_write ex_stock_data
        (ex_state ex_folder ex_docs_feb [] None)
      = (Ok (filter (λ r, ticker r ∉ c_current ex_c_mixed) ex_stock_data), st').
Proof.
  assert (StockDataArtifacts (world (ex_state ex_folder ex_docs_feb [] None))
          ≠ ∅) as H1.
  { intros H. apply (f_equal (λ m, m !! "AAPL")) in H. discriminate H. }
  assert (classify ex_stock_data
            (latest_date <$>
               StockDataArtifacts
                 (world (ex_state ex_folder ex_docs_feb [] None)))
          = Ok ex_c_mixed) as H2 by (vm_compute; reflexivity).
  split; [exact H1|]. split; [exact H2|].
  destruct (C4_filtered _ _ _ H1 H2) as (st' & H3 & _).
  exists st'. exact H3.
Defined.

(** C5 (skip).  For a freshly constructed object on the path with stored
    documents: the classification sets [skip_writing] exactly when the new
    and the updated list are both empty; and when it is set, [run_etl] is
    not an error: it leaves the stored data alone, never records a write,
    still runs the aggregation and upsert step on the state the
    classification left, and returns the one-element report list. *)
Theorem C5_skip_writing (extract_date_from_path : string → string * Z * Z)
    (rid path : string) (w : World) (s : StockETL) (df : list Row)
    (st0 : State) (c : Classification) :
  __init__ extract_date_from_path rid path w = Ok s →
  read_prepare_input_files (mkState s w) = (Ok df, st0) →
  StockDataArtifacts w ≠ ∅ →
  classify df (latest_date <$> StockDataArtifacts w) = Ok c →
  ∃ st1,
    validate_file_to_write df st0 = (Ok (c_filtered c), st1)
    ∧ (skip_writing (self st1) = true ↔ c_new c = [] ∧ c_update c = [])
    ∧ (skip_writing (self st1) = true →
       ∃ st2,
         run_etl (mkState s w) = (Ok [api_artifacts (self st2)], st2)
         ∧ create_save_stock_data_artifacts st1 = (Ok tt, st2)
         ∧ StockData (world st2) = StockData w
         ∧ api_artifacts (self st2) !! "WritingData" = None
         ∧ api_artifacts (self st2) !! "WritingMode"
           = Some "Data already up-to date. Write skipped"
         ∧ api_artifacts (self st2) !! "StockDataArtifacts"
           = Some "Artifacts updated successfully").
Proof.
  intros Hinit Hread Hne Hc.
  apply init_Ok in Hinit as (d & y & m & ->).
  destruct (read_prepare_input_files_Ok _ _ _ Hread) as [-> _].
  cbn [self world] in *.
  set (s0 := set_api_artifact "LoadingData" "Successful" _) in *.
  assert (skip_of c = true ↔ c_new c = [] ∧ c_update c = []) as Hskip.
  { unfold skip_of. destruct (c_update c), (c_new c); split;
      (done || by intros [? ?]). }
  assert (skip_writing (self_after_classification c s0) = skip_of c) as Hsk.
  { unfold self_after_classification. by destruct (skip_of c). }
  assert (mode (self_after_classification c s0) ≠ "overwrite") as Hmode.
  { unfold self_after_classification. by destruct (skip_of c). }
  pose proof (validate_incremental df (mkState s0 w) c Hne Hc) as Hval.
  cbn [self world] in Hval.
  eexists. split; [exact Hval|]. cbn [self world]. rewrite Hsk.
  split; [done|]. intros Hs.
  exists (state_after_update
            (mkState (self_after_classification c s0)
               (world_after_classification c s0 w))).
  split; [|split; [|split]].
  - rewrite (run_etl_steps _ _ _ _ _ Hread Hval). cbn [self world].
    rewrite Hsk, Hs. unfold bind at 1.
    by rewrite create_save_incremental.
  - by apply create_save_incremental.
  - done.
  - unfold state_after_update, self_after_classification. rewrite Hs.
    cbn [self world]. repeat split; reflexivity.
Qed.

(** C5 on a run whose only ticker is current. *)
Lemma C5_skip_writing_witness :
  __init__ ex_extract_date_from_path "run-1" ex_folder_aapl
    (ex_world ex_docs_feb ex_stock_data None)
  = Ok (ex_self ex_folder_aapl)
  ∧ read_prepare_input_files
      (ex_state ex_folder_aapl ex_docs_feb ex_stock_data None)
    = (Ok ex_stock_data_aapl,
       ex_loaded ex_folder_aapl ex_docs_feb ex_stock_data None)
  ∧ StockDataArtifacts (ex_world ex_docs_feb ex_stock_data None) ≠ ∅
  ∧ classify ex_stock_data_aapl
      (latest_date <$>
         StockDataArtifacts (ex_world ex_docs_feb ex_stock_data None))
    = Ok ex_c_current
  ∧ ∃ st2,
      run_etl (ex_state ex_folder_aapl ex_docs_feb ex_stock_data None)
      = (Ok [api_artifacts (self st2)], st2)
      ∧ StockData (world st2) = ex_stock_data.
Proof.
  assert (__init__ ex_extract_date_from_path "run-1" ex_folder_aapl
            (ex_world ex_docs_feb ex_stock_data None)
          = Ok (ex_self ex_folder_aapl)) as H1 by (vm_compute; reflexivity).
  assert (read_prepare_input_files
            (ex_state ex_folder_aapl ex_docs_feb ex_stock_data None)
          = (Ok ex_stock_data_aapl,
             ex_loaded ex_folder_aapl ex_docs_feb ex_stock_data None))
    as H2 by (vm_compute; reflexivity).
  assert (StockDataArtifacts (ex_world ex_docs_feb ex_stock_data None) ≠ ∅)
    as H3.
  { intros H. apply (f_equal (λ m, m !! "AAPL")) in H. discriminate H. }
  assert (classify ex_stock_data_aapl
            (latest_date <$>
               StockDataArtifacts (ex_world ex_docs_feb ex_stock_data None))
          = Ok ex_c_current) as H4 by (vm_compute; reflexivity).
  split; [exact H1|]. split; [exact H2|]. split; [exact H3|].
  split; [exact H4|].
  destruct (C5_skip_writing _ _ _ _ _ _ _ _ H1 H2 H3 H4)
    as (st1 & _ & Hiff & Hrun).
  destruct (Hrun (proj2 Hiff (conj eq_refl eq_refl)))
    as (st2 & Hr & _ & Hd & _).
  exists st2. split; [exact Hr|exact Hd].
Defined.

(** C6 as stated fails.  After a first run on an empty store the store is
    current for the same input; the second and the third run both skip the
    write and leave the stored data alone, and yet each of them adds the
    one February row of AAPL to its [row_count] again. *)
Lemma C6_counterexample :
  already_current ex_stock_data (StockDataArtifacts (world ex_after_first_run))
  = true
  ∧ skip_writing (self ex_after_second_run) = true
  ∧ skip_writing (self ex_after_third_run) = true
  ∧ StockData (world ex_after_third_run) = StockData (world ex_after_first_run)
  ∧ row_count <$> StockDataArtifacts (world ex_after_first_run) !! "AAPL"
    = Some 2
  ∧ row_count <$> StockDataArtifacts (world ex_after_second_run) !! "AAPL"
    = Some 3
  ∧ row_count <$> StockDataArtifacts (world ex_after_third_run) !! "AAPL"
    = Some 4
  ∧ StockDataArtifacts (world ex_after_third_run)
    ≠ StockDataArtifacts (world ex_after_second_run).
Proof.
  repeat split; try (vm_compute; reflexivity).
  intros H. apply (f_equal (λ m, row_count <$> m !! "AAPL")) in H.
  vm_compute in H. discriminate H.
Qed.

(** C6, as the code has it.  A run of a fresh object on a store that is
    already current for its input sets [skip_writing], is not an error and
    leaves the stored data as it was; every stored document stays, with its
    [oldest_date]; but the aggregation still runs, so its [row_count] grows
    by the number of rows stored for the ticker in the run's year and
    month, and its [latest_date] becomes the maximum [date_time] of those
    rows when there is one. *)
Theorem C6_rerun_on_current_store
    (extract_date_from_path : string → string * Z * Z)
    (rid path : string) (w : World) (s : StockETL) (df : list Row)
    (st0 : State) :
  __init__ extract_date_from_path rid path w = Ok s →
  read_prepare_input_files (mkState s w) = (Ok df, st0) →
  already_current df (StockDataArtifacts w) = true →
  ∃ report st2,
    run_etl (mkState s w) = (Ok report, st2)
    ∧ skip_writing (self st2) = true
    ∧ StockData (world st2) = StockData w
    ∧ ∀ t stored, StockDataArtifacts w !! t = Some stored →
        ∃ stored',
          StockDataArtifacts (world st2) !! t = Some stored'
          ∧ oldest_date stored' = oldest_date stored
          ∧ row_count stored'
            = row_count stored
              + Z.of_nat (length (scoped_rows (self_year s) (self_month s)
                                    t w))
          ∧ latest_date stored'
            = match sql_max (date_time <$>
                               scoped_rows (self_year s) (self_month s) t w)
              with
              | Some d => Some d
              | None => latest_date stored
              end.
Proof.
  intros Hinit Hread Hall.
  apply init_Ok in Hinit as (d & y & m & ->).
  destruct (read_prepare_input_files_Ok _ _ _ Hread) as [-> Hne].
  cbn [self world self_year self_month] in *.
  set (s0 := set_api_artifact "LoadingData" "Successful" _) in *.
  destruct (already_current_classify _ _ Hne Hall)
    as (Hdocs & c & Hc & Hnew & Hupd).
  assert (skip_of c = true) as Hs by (unfold skip_of; by rewrite Hnew, Hupd).
  pose proof (validate_incremental df (mkState s0 w) c Hdocs Hc) as Hval.
  cbn [self world] in Hval.
  set (st1 := mkState (self_after_classification c s0)
                (world_after_classification c s0 w)) in *.
  assert (self st1
          = set_api_artifact "run_id" rid
              (set_api_artifact "ETLArtifacts"
                 "ETL Artifacts added successfully"
                 (set_api_artifact "WritingMode"
                    "Data already up-to date. Write skipped"
                    (set_skip_writing true (set_tickers_new [] s0)))))
    as Hself.
  { unfold st1, self_after_classification. cbn [self]. by rewrite Hs, Hnew. }
  assert (mode (self st1) ≠ "overwrite") as Hmode by (by rewrite Hself).
  assert (skip_writing (self st1) = true) as Hsk by (by rewrite Hself).
  exists [api_artifacts (self (state_after_update st1))],
    (state_after_update st1).
  split; [|split; [|split]].
  - rewrite (run_etl_steps _ _ _ _ _ Hread Hval), Hsk.
    unfold bind at 1. by rewrite create_save_incremental.
  - cbn [state_after_update self]. by rewrite Hself.
  - done.
  - intros t stored Hstored.
    cbn [state_after_update world StockDataArtifacts set_StockDataArtifacts
           world_after_classification set_ETLArtifacts st1].
    assert (∀ t', scoped_rows (self_year (self st1)) (self_month (self st1))
                    t' (world st1) = scoped_rows y m t' w) as Hscope.
    { intros t'. by rewrite Hself. }
    destruct (decide (t ∈ (month_aggregated_df st1).*1)) as [Hin|Hout].
    + apply list_elem_of_fmap in Hin as ([t' stats] & -> & Hin).
      cbn [fst] in *.
      pose proof (foldl_upsert_lookup_in _ (StockDataArtifacts w) _ stats
                    (NoDup_month_aggregated_df st1) Hin) as Hlook.
      rewrite Hstored in Hlook.
      eexists. split; [exact Hlook|].
      pose proof (month_aggregated_oldest_date _ _ _ Hin) as Hold.
      rewrite Hself in Hold. cbn [tickers_new set_api_artifact
        set_skip_writing set_tickers_new] in Hold.
      rewrite decide_False in Hold by apply not_elem_of_nil.
      apply elem_of_month_aggregated_df in Hin as [_ Hstats].
      rewrite !Hscope in Hstats.
      cbn [merge_stats oldest_date row_count latest_date].
      rewrite Hold. split; [done|].
      rewrite Hstats. cbn [row_count latest_date]. done.
    + eexists. split.
      * rewrite <- Hstored.
        apply (foldl_upsert_lookup_notin _ (StockDataArtifacts w) _ Hout).
      * assert (scoped_rows y m t w = []) as ->.
        { destruct (scoped_rows y m t w) as [|r l] eqn:E; [done|].
          exfalso. apply Hout, list_elem_of_fmap. eexists (t, _).
          split; [done|]. apply elem_of_month_aggregated_df.
          rewrite !Hscope, E. done. }
        cbn. split; [done|]. split; [lia|done].
Qed.

(** The re-run theorem on the store the first run leaves. *)
Lemma C6_rerun_witness :
  __init__ ex_extract_date_from_path "run-1" ex_folder
    (world ex_after_first_run)
  = Ok (ex_self ex_folder)
  ∧ read_prepare_input_files
      (mkState (ex_self ex_folder) (world ex_after_first_run))
    = (Ok ex_stock_data,
       mkState (set_api_artifact "LoadingData" "Successful" (ex_self ex_folder))
         (world ex_after_first_run))
  ∧ already_current ex_stock_data
      (StockDataArtifacts (world ex_after_first_run)) = true
  ∧ ∃ report st2,
      run_etl (mkState (ex_self ex_folder) (world ex_after_first_run))
      = (Ok report, st2)
      ∧ skip_writing (self st2) = true
      ∧ StockData (world st2) = StockData (world ex_after_first_run).
Proof.
  assert (__init__ ex_extract_date_from_path "run-1" ex_folder
            (world ex_after_first_run)
          = Ok (ex_self ex_folder)) as H1 by (vm_compute; reflexivity).
  assert (read_prepare_input_files
            (mkState (ex_self ex_folder) (world ex_after_first_run))
          = (Ok ex_stock_data,
             mkState
               (set_api_artifact "LoadingData" "Successful" (ex_self ex_folder))
               (world ex_after_first_run)))
    as H2 by (vm_compute; reflexivity).
  assert (already_current ex_stock_data
            (StockDataArtifacts (world ex_after_first_run)) = true)
    as H3 by (vm_compute; reflexivity).
  split; [exact H1|]. split; [exact H2|]. split; [exact H3|].
  destruct (C6_rerun_on_current_store _ _ _ _ _ _ _ H1 H2 H3)
    as (report & st2 & Hr & Hs & Hd & _).
  exists report, st2. split; [exact Hr|]. split; [exact Hs|exact Hd].
Defined.



(** C8 (month scope).  On a run that is not the first, the frame handed to
    the upsert has one record per ticker with stored rows in the year and
    month of the object (those taken from the input folder path), and its
    [row_count] and [latest_date] are the count and the maximum
    [date_time] of exactly those stored rows, whether or not this run wrote
    them. *)
Theorem C8_month_scope (st : State) :
  mode (self st) ≠ "overwrite" →
  ∃ st',
    create_save_stock_data_artifacts st = (Ok tt, st')
    ∧ StockDataArtifacts (world st')
      = foldl upsert_stats (StockDataArtifacts (world st))
          (month_aggregated_df st)
    ∧ NoDup (month_aggregated_df st).*1
    ∧ (∀ t, t ∈ (month_aggregated_df st).*1
            ↔ scoped_rows (self_year (self st)) (self_month (self st)) t
                (world st) ≠ [])
    ∧ (∀ t stats, (t, stats) ∈ month_aggregated_df st →
         row_count stats
         = Z.of_nat (length (scoped_rows (self_year (self st))
                               (self_month (self st)) t (world st)))
         ∧ latest_date stats
           = sql_max (date_time <$>
                        scoped_rows (self_year (self st))
                          (self_month (self st)) t (world st))).
Proof.
  intros Hmode. exists (state_after_update st).
  split; [by apply create_save_incremental|].
  split; [done|]. split; [apply NoDup_month_aggregated_df|]. split.
  - intros t. rewrite list_elem_of_fmap. split.
    + intros ([t' stats] & -> & Hin).
      by apply elem_of_month_aggregated_df in Hin as [? _].
    + intros Hne. eexists (t, _). split; [done|].
      apply elem_of_month_aggregated_df. by split.
  - by intros t stats [_ ->]%elem_of_month_aggregated_df.
Qed.

(** C8 on a later run: AAPL has two stored rows, one of them in February,
    and the aggregated count is one. *)
Lemma C8_month_scope_witness :
  mode (self ex_state_later) ≠ "overwrite"
  ∧ ("AAPL", mkStats 1 None (Some feb_15)) ∈ month_aggregated_df ex_state_later
  ∧ length (filter (λ r, ticker r = "AAPL") (StockData (world ex_state_later)))
    = 2%nat
  ∧ 1 = Z.of_nat (length (scoped_rows 2024 2 "AAPL" (world ex_state_later))).
Proof.
  assert (mode (self ex_state_later) ≠ "overwrite") as H1 by discriminate.
  assert (("AAPL", mkStats 1 None (Some feb_15))
          ∈ month_aggregated_df ex_state_later) as H2.
  { apply list_elem_of_In. vm_compute. left. reflexivity. }
  split; [exact H1|]. split; [exact H2|]. split; [reflexivity|].
  destruct (C8_month_scope ex_state_later H1) as (st' & _ & _ & _ & _ & Hagg).
  exact (proj1 (Hagg _ _ H2)).
Defined.

(** C9 (failed write).  When the classification asks for a write and the
    storage engine fails it with the text [e], [run_etl] ends with the
    exception that wraps [e], in the very state the classification left:
    the aggregation and upsert step has not run.  The stored data is that
    from before the run, and no per-ticker document has been advanced: a
    collection that held documents is unchanged, every document that was
    stored is still stored as it was, a document that was not there before
    is a stub without row count and dates (the first-run path creates
    those before the write), and so the stored [latest_date] and
    [oldest_date] of every ticker are what they were. *)
Theorem C9_write_failure (st st0 st1 : State) (df fdf : list Row) (e : string) :
  read_prepare_input_files st = (Ok df, st0) →
  validate_file_to_write df st0 = (Ok fdf, st1) →
  skip_writing (self st1) = false →
  storage_error (world st) = Some e →
  run_etl st
  = (Raise (Exception ("Could not save data in StockData. ERROR: " +:+ e)), st1)
  ∧ StockData (world st1) = StockData (world st)
  ∧ (StockDataArtifacts (world st) ≠ ∅ →
     StockDataArtifacts (world st1) = StockDataArtifacts (world st))
  ∧ (∀ t doc, StockDataArtifacts (world st) !! t = Some doc →
              StockDataArtifacts (world st1) !! t = Some doc)
  ∧ (∀ t doc, StockDataArtifacts (world st1) !! t = Some doc →
              StockDataArtifacts (world st) !! t = Some doc ∨ doc = stub_stats)
  ∧ (∀ t, StockDataArtifacts (world st1) !! t ≫= latest_date
          = StockDataArtifacts (world st) !! t ≫= latest_date)
  ∧ (∀ t, StockDataArtifacts (world st1) !! t ≫= oldest_date
          = StockDataArtifacts (world st) !! t ≫= oldest_date).
Proof.
  intros Hread Hval Hskip Herr.
  rewrite (run_etl_steps _ _ _ _ _ Hread Hval), Hskip.
  apply validate_file_to_write_world in Hval
    as (Hdata & Hse & _ & Hsame & Hkept & Hstub).
  apply read_prepare_input_files_Ok in Hread as [-> _]. cbn [world] in *.
  assert (∀ (f : Stats → option Z), f stub_stats = None →
            ∀ t, StockDataArtifacts (world st1) !! t ≫= f
                 = StockDataArtifacts (world st) !! t ≫= f) as Hdates.
  { intros f Hf t.
    destruct (StockDataArtifacts (world st) !! t) as [doc|] eqn:Hdoc.
    - by rewrite (Hkept _ _ Hdoc).
    - destruct (StockDataArtifacts (world st1) !! t) as [doc'|] eqn:Hdoc';
        [|done].
      destruct (Hstub _ _ Hdoc') as [Hold| ->]; [|done].
      rewrite Hdoc in Hold. discriminate. }
  split; [|repeat split; auto].
  unfold bind at 1. rewrite (write_partitioned_stock_data_fails _ _ e); [done|].
  by rewrite Hse.
Qed.

(** C9 on a first run whose write fails: the stubs are there, without dates. *)
Lemma C9_write_failure_witness :
  read_prepare_input_files
    (ex_state ex_folder ∅ [] (Some "No space left on device"))
  = (Ok ex_stock_data, ex_loaded ex_folder ∅ [] (Some "No space left on device"))
  ∧ (validate_file_to_write ex_stock_data
       (ex_loaded ex_folder ∅ [] (Some "No space left on device"))).1
    = Ok ex_stock_data
  ∧ run_etl (ex_state ex_folder ∅ [] (Some "No space left on device"))
    = (Raise (Exception
                "Could not save data in StockData. ERROR: No space left on device"),
       (validate_file_to_write ex_stock_data
          (ex_loaded ex_folder ∅ [] (Some "No space left on device"))).2)
  ∧ StockDataArtifacts
      (world (validate_file_to_write ex_stock_data
                (ex_loaded ex_folder ∅ []
                   (Some "No space left on device"))).2) !! "AAPL"
    = Some stub_stats
  ∧ StockDataArtifacts
      (world (validate_file_to_write ex_stock_data
                (ex_loaded ex_folder ∅ []
                   (Some "No space left on device"))).2) !! "AAPL"
      ≫= latest_date
    = None.
Proof.
  assert (read_prepare_input_files
            (ex_state ex_folder ∅ [] (Some "No space left on device"))
          = (Ok ex_stock_data,
             ex_loaded ex_folder ∅ [] (Some "No space left on device")))
    as H1 by (vm_compute; reflexivity).
  assert (validate_file_to_write ex_stock_data
            (ex_loaded ex_folder ∅ [] (Some "No space left on device"))
          = (Ok ex_stock_data,
             (validate_file_to_write ex_stock_data
                (ex_loaded ex_folder ∅ []
                   (Some "No space left on device"))).2))
    as H2 by (vm_compute; reflexivity).
  split; [exact H1|]. split; [by rewrite H2|].
  destruct (C9_write_failure _ _ _ _ _ "No space left on device" H1 H2
              ltac:(vm_compute; reflexivity) eq_refl)
    as (Hrun & _ & _ & _ & _ & Hlatest & _).
  split; [exact Hrun|]. split; [vm_compute; reflexivity|].
  exact (Hlatest "AAPL").
Defined.

(** C10 (null oldest date).  Whatever frame the read returns, the record
    the later-run aggregation builds for a ticker outside [tickers_new] has
    a null [oldest_date]. *)
Theorem C10_null_oldest_date (tickers_new : list string)
    (df : list (string * option Z)) (t : string) (stats : Stats) :
  (t, stats) ∈ update_aggregated_df tickers_new df →
  t ∉ tickers_new →
  oldest_date stats = None.
Proof.
  unfold update_aggregated_df. intros [_ ->]%elem_of_groupBy Hnin.
  cbn [oldest_date]. apply sql_min_None.
  intros v (r & -> & [_ Hr]%elem_of_group)%list_elem_of_fmap.
  unfold when, isin. rewrite Hr. by rewrite bool_decide_eq_false_2.
Qed.

(** C10 on a frame with one row of AAPL, which is not new. *)
Lemma C10_null_oldest_date_witness :
  ("AAPL", mkStats 1 None (Some feb_15))
  ∈ update_aggregated_df ["MSFT"] [("AAPL", Some feb_15); ("MSFT", Some feb_15)]
  ∧ ("AAPL" ∉ ["MSFT"])
  ∧ oldest_date (mkStats 1 None (Some feb_15)) = None.
Proof.
  assert (("AAPL", mkStats 1 None (Some feb_15))
          ∈ update_aggregated_df ["MSFT"]
              [("AAPL", Some feb_15); ("MSFT", Some feb_15)]) as H1.
  { apply list_elem_of_In. vm_compute. left. reflexivity. }
  assert ("AAPL" ∉ ["MSFT"]) as H2.
  { intros H. apply list_elem_of_singleton in H. discriminate H. }
  split; [exact H1|]. split; [exact H2|].
  exact (C10_null_oldest_date _ _ _ _ H1 H2).
Defined.


(** * Part IV: further properties of the methods *)

(** ** The loader *)

Lemma before_last_csv_suffix (t : string) :
  before_last_csv (t +:+ ".csv") = Some t.
Proof.
  induction t as [|c t IH]; [reflexivity|].
  change (String c t +:+ ".csv") with (String c (t +:+ ".csv")).
  cbn [before_last_csv]. by rewrite IH.
Qed.

Lemma match_ticker_no_slash (s : string) :
  no_slash s = true → match_ticker s = None.
Proof.
  induction s as [|c s IH]; [done|]. cbn [no_slash match_ticker].
  intros [Hc Hs]%andb_prop. rewrite (IH Hs).
  apply negb_true_iff in Hc. by rewrite Hc.
Qed.

Lemma no_slash_app (s1 s2 : string) :
  no_slash (s1 +:+ s2) = no_slash s1 && no_slash s2.
Proof.
  induction s1 as [|c s1 IH]; [done|].
  change (String c s1 +:+ s2) with (String c (s1 +:+ s2)).
  cbn [no_slash]. by rewrite IH, andb_assoc.
Qed.

(** X1.  The ticker of a file: for a file name made of any directory part,
    a slash, a base name without slash and the extension ".csv", the
    loader's pattern extracts exactly the base name. *)
Theorem X1_ticker_of_file_name (dir t : string) :
  no_slash t = true →
  regexp_extract_ticker (dir +:+ "/" +:+ t +:+ ".csv") = t.
Proof.
  intros Ht. unfold regexp_extract_ticker.
  assert (match_ticker (dir +:+ "/" +:+ t +:+ ".csv") = Some t) as ->; [|done].
  induction dir as [|c dir IH].
  - change ("" +:+ "/" +:+ t +:+ ".csv") with (String "/" (t +:+ ".csv")).
    cbn [match_ticker]. rewrite match_ticker_no_slash.
    + apply before_last_csv_suffix.
    + by rewrite no_slash_app, Ht.
  - change (String c dir +:+ "/" +:+ t +:+ ".csv")
      with (String c (dir +:+ "/" +:+ t +:+ ".csv")).
    cbn [match_ticker]. by rewrite IH.
Qed.

(** X1 on the path Spark reports for a file of AAPL. *)
Lemma X1_ticker_of_file_name_witness :
  no_slash "AAPL" = true
  ∧ regexp_extract_ticker ("file:///data/2024-02-15" +:+ "/" +:+ "AAPL" +:+ ".csv")
    = "AAPL".
Proof.
  split; [reflexivity|].
  exact (X1_ticker_of_file_name "file:///data/2024-02-15" "AAPL" eq_refl).
Defined.

(** X2.  A file name without any slash does not match the loader's pattern,
    and the ticker of its records is the empty string. *)
Theorem X2_ticker_without_directory (file_name : string) (r : RawRecord) :
  no_slash file_name = true →
  ticker (prepare_row (file_name, r)) = "".
Proof.
  intros H. cbn [prepare_row ticker fst]. unfold regexp_extract_ticker.
  by rewrite match_ticker_no_slash.
Qed.

Lemma X2_ticker_without_directory_witness :
  no_slash "AAPL.csv" = true
  ∧ ticker (prepare_row ("AAPL.csv", ex_record feb_15)) = "".
Proof.
  split; [reflexivity|].
  exact (X2_ticker_without_directory "AAPL.csv" (ex_record feb_15) eq_refl).
Defined.

Lemma string_compare_refl (s : string) : String.compare s s = Eq.
Proof.
  induction s as [|c s IH]; [done|]. simpl.
  unfold Ascii.compare. by rewrite N.compare_refl.
Qed.

Lemma string_compare_lt_trans (a b c : string) :
  String.compare a b = Lt → String.compare b c = Lt → String.compare a c = Lt.
Proof.
  revert b c. induction a as [|a0 a IH]; intros [|b0 b] [|c0 c]; simpl;
    try done.
  destruct (Ascii.compare a0 b0) eqn:Eab; [|intros _|done];
    destruct (Ascii.compare b0 c0) eqn:Ebc; try done.
  - apply Ascii.compare_eq_iff in Eab as ->. rewrite Ebc. apply IH.
  - apply Ascii.compare_eq_iff in Eab as ->. by rewrite Ebc.
  - apply Ascii.compare_eq_iff in Ebc as <-. by rewrite Eab.
  - unfold Ascii.compare in *. rewrite N.compare_lt_iff in Eab, Ebc.
    assert (N_of_ascii a0 < N_of_ascii c0)%N as H by lia.
    apply N.compare_lt_iff in H. by rewrite H.
Qed.

Lemma date_time_leb_total (a b : option Z) :
  date_time_leb a b = false → date_time_leb b a = true.
Proof.
  destruct a as [x|], b as [y|]; simpl; try done.
  rewrite Z.leb_gt, Z.leb_le. lia.
Qed.

Lemma date_time_leb_trans (a b c : option Z) :
  date_time_leb a b = true → date_time_leb b c = true →
  date_time_leb a c = true.
Proof.
  destruct a as [x|], b as [y|], c as [z|]; simpl; try done.
  rewrite !Z.leb_le. lia.
Qed.

Lemma row_leb_total (r1 r2 : Row) : row_leb r1 r2 = false → row_le r2 r1.
Proof.
  unfold row_le, row_leb. rewrite (String.compare_antisym (ticker r1)).
  destruct (String.compare (ticker r2) (ticker r1)); simpl; try done.
  apply date_time_leb_total.
Qed.

Lemma row_le_trans (r1 r2 r3 : Row) : row_le r1 r2 → row_le r2 r3 → row_le r1 r3.
Proof.
  unfold row_le, row_leb.
  destruct (String.compare (ticker r1) (ticker r2)) eqn:E12; [| |done];
    destruct (String.compare (ticker r2) (ticker r3)) eqn:E23; try done.
  - apply String.compare_eq_iff in E12. rewrite E12, E23.
    apply date_time_leb_trans.
  - apply String.compare_eq_iff in E12. by rewrite E12, E23.
  - apply String.compare_eq_iff in E23. by rewrite <- E23, E12.
  - by rewrite (string_compare_lt_trans _ _ _ E12 E23).
Qed.

Lemma insert_row_Permutation (r : Row) (l : list Row) :
  insert_row r l ≡ₚ r :: l.
Proof.
  induction l as [|x l IH]; simpl; [done|].
  destruct (row_leb r x); [done|]. rewrite IH. apply perm_swap.
Qed.

Lemma orderBy_Permutation (df : list Row) :
  orderBy_ticker_date_time df ≡ₚ df.
Proof.
  induction df as [|r df IH]; simpl; [done|].
  by rewrite insert_row_Permutation, IH.
Qed.

Lemma insert_row_HdRel (x r : Row) (l : list Row) :
  row_le x r → HdRel row_le x l → HdRel row_le x (insert_row r l).
Proof.
  intros Hxr Hx. destruct l as [|y l]; simpl; [by constructor|].
  destruct (row_leb r y); [by constructor|].
  constructor. by inversion Hx.
Qed.

Lemma insert_row_Sorted (r : Row) (l : list Row) :
  Sorted row_le l → Sorted row_le (insert_row r l).
Proof.
  induction l as [|x l IH]; intros Hs; simpl.
  - by repeat constructor.
  - destruct (row_leb r x) eqn:E.
    + constructor; [done|]. by constructor.
    + apply Sorted_inv in Hs as [Hs Hx]. constructor; [by apply IH|].
      apply insert_row_HdRel; [|done]. by apply row_leb_total.
Qed.

Lemma orderBy_Sorted (df : list Row) :
  Sorted row_le (orderBy_ticker_date_time df).
Proof.
  induction df as [|r df IH]; simpl; [constructor|].
  by apply insert_row_Sorted.
Qed.

(** X3.  What the loader returns: the prepared records of all files of the
    folder, none lost and none added, in an order in which every row comes
    before all rows that are greater by ticker and then [date_time] (nulls
    first); the status report gets its [LoadingData] entry and nothing else
    changes. *)
Theorem X3_loader_sorted (st st0 : State) (df : list Row) :
  read_prepare_input_files st = (Ok df, st0) →
  ∃ files,
    folders (world st) !! input_folder_path (self st) = Some files
    ∧ df ≡ₚ prepare_row <$> folder_records files
    ∧ StronglySorted row_le df
    ∧ st0 = mkState (set_api_artifact "LoadingData" "Successful" (self st))
              (world st).
Proof.
  rewrite read_prepare_input_files_eq.
  destruct (folders (world st) !! input_folder_path (self st))
    as [[|f files]|]; [discriminate| |discriminate].
  destruct (folder_records (f :: files)) as [|fr frs] eqn:E; [discriminate|].
  intros [= <- <-]. exists (f :: files). split; [done|]. rewrite E.
  split; [exact (orderBy_Permutation (prepare_row <$> fr :: frs))|].
  split; [|done].
  apply Sorted_StronglySorted;
    [|exact (orderBy_Sorted (prepare_row <$> fr :: frs))].
  intros r1 r2 r3. apply row_le_trans.
Qed.

Lemma X3_loader_sorted_witness :
  read_prepare_input_files (ex_state ex_folder ∅ [] None)
  = (Ok ex_stock_data, ex_loaded ex_folder ∅ [] None)
  ∧ ∃ files,
      ex_stock_data ≡ₚ prepare_row <$> folder_records files
      ∧ StronglySorted row_le ex_stock_data.
Proof.
  assert (read_prepare_input_files (ex_state ex_folder ∅ [] None)
          = (Ok ex_stock_data, ex_loaded ex_folder ∅ [] None)) as H
    by (vm_compute; reflexivity).
  split; [exact H|].
  destruct (X3_loader_sorted _ _ _ H) as (files & _ & Hp & Hs & _).
  exists files. split; [exact Hp|exact Hs].
Defined.

Lemma folder_records_nil (files : list CsvFile) :
  (∀ f, f ∈ files → records f = []) → folder_records files = [].
Proof.
  unfold folder_records. induction files as [|f files IH]; intros H; [done|].
  rewrite bind_cons, (H f), IH; [done| |apply elem_of_cons; auto].
  intros f' Hf'. apply H, elem_of_cons. auto.
Qed.

(** X4.  Empty input.  When the input folder holds at least one file and
    its files hold no record at all, [run_etl] ends with the loader's
    exception and in the state it started in: no report entry, no run
    artifact, no write, no upsert. *)
Theorem X4_empty_input (st : State) (files : list CsvFile) :
  folders (world st) !! input_folder_path (self st) = Some files →
  files ≠ [] →
  (∀ f, f ∈ files → records f = []) →
  run_etl st
  = (Raise (Exception ("The Stock Data in '" +:+ input_folder_path (self st)
                         +:+ "' is empty.")), st).
Proof.
  intros Hf Hfiles Hnil. apply folder_records_nil in Hnil.
  unfold run_etl, bind. rewrite read_prepare_input_files_eq, Hf.
  destruct files as [|f files]; [done|]. by rewrite Hnil.
Qed.

Lemma X4_empty_input_witness :
  run_etl ex_empty_folder_state
  = (Raise (Exception "The Stock Data in 'data/empty' is empty."),
     ex_empty_folder_state).
Proof.
  apply (X4_empty_input ex_empty_folder_state
           [mkCsvFile "file:///data/empty/AAPL.csv" []]).
  - reflexivity.
  - discriminate.
  - intros f Hf. apply list_elem_of_singleton in Hf. by rewrite Hf.
Defined.

(** ** The classification *)

Lemma classify_loop_TypeError (df_dict mongo_dict : gmap string (option Z))
    (tickers upd cur : list string) :
  (∀ t, t ∈ tickers → is_Some (df_dict !! t) ∧ is_Some (mongo_dict !! t)) →
  (∃ t, t ∈ tickers ∧ ¬ comparable df_dict mongo_dict t) →
  classify_loop df_dict mongo_dict tickers upd cur
  = Raise (TypeError "'<=' not supported between these instances").
Proof.
  revert upd cur. induction tickers as [|t0 rest IH]; intros upd cur Hs Hex.
  - destruct Hex as (t & Ht & _). by apply elem_of_nil in Ht.
  - destruct (Hs t0) as [[va Ha] [vb Hb]]; [apply elem_of_cons; auto|].
    cbn [classify_loop]. unfold getitem. rewrite Ha, Hb. cbn [obind].
    destruct va as [a|], vb as [b|]; try reflexivity.
    cbn [py_le obind].
    assert (∃ t, t ∈ rest ∧ ¬ comparable df_dict mongo_dict t) as Hex'.
    { destruct Hex as (t & Ht & Hn). exists t. split; [|done].
      apply elem_of_cons in Ht as [->|?]; [|done].
      exfalso. apply Hn. by exists a, b. }
    assert (∀ t, t ∈ rest →
              is_Some (df_dict !! t) ∧ is_Some (mongo_dict !! t)) as Hs'.
    { intros t Ht. apply Hs, elem_of_cons. auto. }
    destruct (a <=? b); by apply IH.
Qed.

(** X5.  Null dates.  When a ticker that already has a stored document
    comes with input rows that all lack a [date_time], the comparison of
    the classification raises [TypeError], and [run_etl] ends with it
    before anything outside the object has changed: no run artifact, no
    write, no upsert. *)
Theorem X5_null_dates_abort (st st0 : State) (df : list Row) (t : string) :
  read_prepare_input_files st = (Ok df, st0) →
  is_Some (StockDataArtifacts (world st) !! t) →
  (∃ r, r ∈ df ∧ ticker r = t) →
  (∀ r, r ∈ df → ticker r = t → date_time r = None) →
  ∃ msg st',
    run_etl st = (Raise (TypeError msg), st')
    ∧ world st' = world st
    ∧ skip_writing (self st') = skip_writing (self st)
    ∧ mode (self st') = mode (self st).
Proof.
  intros Hread [doc Hdoc] Hrow Hnull.
  destruct (read_prepare_input_files_Ok _ _ _ Hread) as [-> _].
  set (mongo := latest_date <$> StockDataArtifacts (world st)).
  assert (mongo !! t = Some (latest_date doc)) as Hm.
  { unfold mongo. by rewrite lookup_fmap, Hdoc. }
  assert (df_latest_dates_dict df !! t = Some None) as Hd.
  { apply df_latest_dates_dict_lookup. split; [done|]. symmetry.
    apply sql_max_None. intros v (r & -> & [Hr Ht]%elem_of_group)%list_elem_of_fmap.
    by apply Hnull. }
  eexists _, _. split.
  - unfold run_etl. unfold bind at 1. rewrite Hread.
    unfold bind at 1.
    unfold validate_file_to_write, export_ticker_data_from_mongo.
    unfold bind at 1. cbn [self world]. fold mongo.
    destruct (decide (mongo = ∅)) as [He|_].
    { rewrite He, lookup_empty in Hm. discriminate. }
    unfold bind at 1. unfold modify_self at 1. cbn [self world].
    unfold bind at 1. unfold lift.
    rewrite classify_loop_TypeError; [reflexivity| |].
    + intros t' [H1 H2]%elem_of_elements%elem_of_intersection.
      split; by apply elem_of_dom.
    + exists t. split.
      * apply elem_of_elements, elem_of_intersection.
        split; apply elem_of_dom; by eexists.
      * intros (a & b & Ha & _). rewrite Hd in Ha. discriminate.
  - done.
Qed.

Lemma X5_null_dates_abort_witness :
  read_prepare_input_files ex_undated_state
  = (Ok [prepare_row ("file:///data/undated/AAPL.csv",
                      mkRawRecord None None None None None None)],
     mkState (set_api_artifact "LoadingData" "Successful"
                (self ex_undated_state)) (world ex_undated_state))
  ∧ ∃ msg st',
      run_etl ex_undated_state = (Raise (TypeError msg), st')
      ∧ world st' = world ex_undated_state.
Proof.
  assert (read_prepare_input_files ex_undated_state
          = (Ok [prepare_row ("file:///data/undated/AAPL.csv",
                              mkRawRecord None None None None None None)],
             mkState (set_api_artifact "LoadingData" "Successful"
                        (self ex_undated_state)) (world ex_undated_state)))
    as H by (vm_compute; reflexivity).
  split; [exact H|].
  destruct (X5_null_dates_abort _ _ _ "AAPL" H) as (msg & st' & Hr & Hw & _).
  - eexists. vm_compute. reflexivity.
  - eexists. split; [apply list_elem_of_singleton; reflexivity|reflexivity].
  - intros r Hr _. apply list_elem_of_singleton in Hr. by rewrite Hr.
  - exists msg, st'. split; [exact Hr|exact Hw].
Defined.




Lemma classify_input_cases (stock_data : list Row)
    (mongo_ticker_dict : gmap string (option Z)) (c : Classification)
    (r : Row) :
  classify stock_data mongo_ticker_dict = Ok c →
  r ∈ stock_data →
  ticker r ∈ c_new c ∨ ticker r ∈ c_update c ∨ ticker r ∈ c_current c.
Proof.
  intros Hc Hr. apply classify_spec in Hc as (Hn & _ & Hu & Hcur & Hcmp & _).
  assert (ticker r ∈ dom (df_latest_dates_dict stock_data)) as Hdom.
  { apply df_latest_dates_dict_dom. by exists r. }
  destruct (decide (ticker r ∈ dom mongo_ticker_dict)) as [Hin|Hout].
  - destruct (Hcmp _ Hdom Hin) as (a & b & Ha & Hb).
    destruct (decide (a ≤ b)).
    + right; right. apply Hcur. by exists a, b.
    + right; left. apply Hu. exists a, b. repeat split; [done..|lia].
  - left. by apply Hn.
Qed.

Lemma classify_written_has_rows (stock_data : list Row)
    (mongo_ticker_dict : gmap string (option Z)) (c : Classification)
    (t : string) :
  classify stock_data mongo_ticker_dict = Ok c →
  t ∈ c_new c ∨ t ∈ c_update c →
  ∃ r, r ∈ stock_data ∧ ticker r = t.
Proof.
  intros Hc Ht. apply classify_spec in Hc as (Hn & _ & Hu & _).
  apply df_latest_dates_dict_dom. destruct Ht as [[? _]%Hn|Ht]; [done|].
  apply Hu in Ht as (a & b & Ha & _). apply elem_of_dom. by eexists.
Qed.

Lemma classify_filtered_tickers (stock_data : list Row)
    (mongo_ticker_dict : gmap string (option Z)) (c : Classification)
    (t : string) :
  classify stock_data mongo_ticker_dict = Ok c →
  t ∈ distinct_tickers (c_filtered c) ↔ t ∈ c_new c ∨ t ∈ c_update c.
Proof.
  intros Hc. unfold distinct_tickers. rewrite elem_of_distinct_keys.
  pose proof (classify_current_disjoint _ _ _ Hc) as [Hnc Huc].
  destruct (classify_spec _ _ _ Hc) as (_ & _ & _ & _ & _ & ->). split.
  - intros (r & [Hncur Hr]%list_elem_of_filter & <-).
    destruct (classify_input_cases _ _ _ r Hc Hr) as [?|[?|?]]; auto. done.
  - intros Ht.
    destruct (classify_written_has_rows _ _ _ t Hc Ht) as (r & Hr & <-).
    exists r. split; [|done]. apply list_elem_of_filter. split; [|done].
    intros Hcur. destruct Ht as [?|?]; [by eapply Hnc|by eapply Huc].
Qed.



Lemma classify_filtered_nil (stock_data : list Row)
    (mongo_ticker_dict : gmap string (option Z)) (c : Classification) :
  classify stock_data mongo_ticker_dict = Ok c →
  c_filtered c = [] ↔ skip_of c = true.
Proof.
  intros Hc.
  assert (skip_of c = true ↔ c_new c = [] ∧ c_update c = []) as ->.
  { unfold skip_of. destruct (c_update c), (c_new c); split;
      (done || by intros [? ?]). }
  pose proof (λ t, classify_filtered_tickers _ _ _ t Hc) as Hw.
  split.
  - intros Hnil. rewrite Hnil in Hw.
    split; apply elem_of_nil_inv; intros t Ht.
    + assert (t ∈ distinct_tickers []) as H by (apply Hw; auto).
      by apply elem_of_nil in H.
    + assert (t ∈ distinct_tickers []) as H by (apply Hw; auto).
      by apply elem_of_nil in H.
  - intros [Hn Hu]. destruct (c_filtered c) as [|r l] eqn:E; [done|].
    exfalso.
    assert (ticker r ∈ distinct_tickers (r :: l)) as H.
    { unfold distinct_tickers. apply elem_of_distinct_keys. exists r.
      split; [apply elem_of_cons; auto|done]. }
    apply Hw in H. rewrite Hn, Hu in H.
    destruct H as [H|H]; by apply elem_of_nil in H.
Qed.

(** X8.  The write is skipped exactly when there is nothing to write.  For
    an object whose [skip_writing] is still unset, on the path with stored
    documents, the classification sets the flag if and only if the frame it
    returns is empty; so [run_etl] never calls the writer with an empty
    frame on that path, and never drops a non-empty one. *)
Theorem X8_skip_iff_nothing_to_write (stock_data : list Row) (st : State)
    (c : Classification) :
  skip_writing (self st) = false →
  StockDataArtifacts (world st) ≠ ∅ →
  classify stock_data (latest_date <$> StockDataArtifacts (world st)) = Ok c →
  ∃ fdf st',
    validate_file_to_write stock_data st = (Ok fdf, st')
    ∧ (skip_writing (self st') = true ↔ fdf = []).
Proof.
  intros Hfresh Hne Hc.
  exists (c_filtered c),
    (mkState (self_after_classification c (self st))
       (world_after_classification c (self st) (world st))).
  split; [by apply validate_incremental|].
  rewrite (classify_filtered_nil _ _ _ Hc). cbn [self].
  unfold self_after_classification. destruct (skip_of c); cbn; [done|].
  by rewrite Hfresh.
Qed.

Lemma X8_skip_iff_nothing_to_write_witness :
  skip_writing (self (ex_state ex_folder_aapl ex_docs_feb [] None)) = false
  ∧ StockDataArtifacts (world (ex_state ex_folder_aapl ex_docs_feb [] None)) ≠ ∅
  ∧ classify ex_stock_data_aapl
      (latest_date <$>
         StockDataArtifacts
           (world (ex_state ex_folder_aapl ex_docs_feb [] None)))
    = Ok ex_c_current
  ∧ ∃ fdf st',
      validate_file_to_write ex_stock_data_aapl
        (ex_state ex_folder_aapl ex_docs_feb [] None) = (Ok fdf, st')
      ∧ (skip_writing (self st') = true ↔ fdf = []).
Proof.
  assert (StockDataArtifacts
            (world (ex_state ex_folder_aapl ex_docs_feb [] None)) ≠ ∅) as H1.
  { intros H. apply (f_equal (λ m, m !! "AAPL")) in H. discriminate H. }
  assert (classify ex_stock_data_aapl
            (latest_date <$>
               StockDataArtifacts
                 (world (ex_state ex_folder_aapl ex_docs_feb [] None)))
          = Ok ex_c_current) as H2 by (vm_compute; reflexivity).
  split; [reflexivity|]. split; [exact H1|]. split; [exact H2|].
  exact (X8_skip_iff_nothing_to_write ex_stock_data_aapl
           (ex_state ex_folder_aapl ex_docs_feb [] None) ex_c_current
           eq_refl H1 H2).
Defined.

Lemma elem_of_group_dates (stock_data : list Row) (t : string) (v : option Z) :
  v ∈ date_time <$> group ticker t stock_data
  ↔ ∃ r, r ∈ stock_data ∧ ticker r = t ∧ date_time r = v.
Proof.
  rewrite list_elem_of_fmap. split.
  - intros (r & -> & [Hr Ht]%elem_of_group). by exists r.
  - intros (r & Hr & Ht & <-). exists r. split; [done|].
    by apply elem_of_group.
Qed.

(** X9.  The dict of latest dates.  It has an entry exactly for the tickers
    of the input; the entry is the greatest [date_time] among the ticker's
    rows, attained by one of them, and it is [None] exactly when none of
    the ticker's rows has a [date_time]. *)
Theorem X9_latest_dates_dict (stock_data : list Row) (t : string) :
  (df_latest_dates_dict stock_data !! t = None
   ↔ ∀ r, r ∈ stock_data → ticker r ≠ t)
  ∧ (∀ d, df_latest_dates_dict stock_data !! t = Some (Some d)
          ↔ (∃ r, r ∈ stock_data ∧ ticker r = t ∧ date_time r = Some d)
            ∧ ∀ r d', r ∈ stock_data → ticker r = t →
                      date_time r = Some d' → d' ≤ d)
  ∧ (df_latest_dates_dict stock_data !! t = Some None
     ↔ (∃ r, r ∈ stock_data ∧ ticker r = t)
       ∧ ∀ r, r ∈ stock_data → ticker r = t → date_time r = None).
Proof.
  split; [|split].
  - rewrite <- not_elem_of_dom, df_latest_dates_dict_dom. split.
    + intros Hn r Hr Ht. apply Hn. by exists r.
    + intros Hn (r & Hr & Ht). by apply (Hn r).
  - intros d. rewrite df_latest_dates_dict_lookup. split.
    + intros [_ Hmax]. symmetry in Hmax.
      apply sql_max_Some in Hmax as [Hin Hle]. split.
      * by apply elem_of_group_dates in Hin.
      * intros r d' Hr Ht Hd. apply Hle, elem_of_group_dates. by exists r.
    + intros [(r & Hr & Ht & Hd) Hle]. split; [by exists r|]. symmetry.
      apply sql_max_Some. split.
      * apply elem_of_group_dates. by exists r.
      * intros d' (r' & Hr' & Ht' & Hd')%elem_of_group_dates.
        by apply (Hle r').
  - rewrite df_latest_dates_dict_lookup. split.
    + intros [Hex Hmax]. split; [done|]. symmetry in Hmax.
      intros r Hr Ht. apply (proj1 (sql_max_None _) Hmax).
      apply elem_of_group_dates. by exists r.
    + intros [Hex Hnone]. split; [done|]. symmetry. apply sql_max_None.
      intros v (r & Hr & Ht & <-)%elem_of_group_dates. by apply Hnone.
Qed.

Lemma sql_max_ext (col col' : list (option Z)) :
  (∀ v, v ∈ col ↔ v ∈ col') → sql_max col = sql_max col'.
Proof.
  intros Hext. destruct (sql_max col) as [d|] eqn:E; symmetry.
  - apply sql_max_Some in E as [Hin Hle]. apply sql_max_Some. split.
    + by apply Hext.
    + intros d' Hd'. by apply Hle, Hext.
  - apply sql_max_None. intros v Hv%Hext.
    by apply (proj1 (sql_max_None col) E).
Qed.

Lemma df_latest_dates_dict_Permutation (stock_data stock_data' : list Row) :
  stock_data ≡ₚ stock_data' →
  df_latest_dates_dict stock_data = df_latest_dates_dict stock_data'.
Proof.
  intros Hp. apply map_eq. intros t. apply option_eq. intros v.
  rewrite !df_latest_dates_dict_lookup.
  assert (sql_max (date_time <$> group ticker t stock_data)
          = sql_max (date_time <$> group ticker t stock_data')) as ->.
  { apply sql_max_ext. intros v'. rewrite !elem_of_group_dates.
    by setoid_rewrite Hp. }
  by setoid_rewrite Hp.
Qed.

Lemma classify_loop_accumulators (df_dict mongo_dict : gmap string (option Z))
    (tickers upd cur upd' cur' : list string) (uc : list string * list string) :
  upd ≡ₚ upd' → cur ≡ₚ cur' →
  classify_loop df_dict mongo_dict tickers upd cur = Ok uc →
  ∃ uc', classify_loop df_dict mongo_dict tickers upd' cur' = Ok uc'
         ∧ uc'.1 ≡ₚ uc.1 ∧ uc'.2 ≡ₚ uc.2.
Proof.
  revert upd cur upd' cur'.
  induction tickers as [|t rest IH]; intros upd cur upd' cur' Hu Hc;
    cbn [classify_loop].
  - intros [= <-]. eexists. split; [reflexivity|]. by split.
  - destruct (getitem df_dict t) as [a|]; cbn [obind]; [|discriminate].
    destruct (getitem mongo_dict t) as [b|]; cbn [obind]; [|discriminate].
    destruct (py_le a b) as [[|]|]; cbn [obind]; [| |discriminate].
    + apply IH; [done|]. by apply Permutation_app.
    + apply IH; [|done]. by apply Permutation_app.
Qed.

(** The loop gives the same two lists, up to order, in whatever order it
    takes the tickers. *)
Lemma classify_loop_Permutation (df_dict mongo_dict : gmap string (option Z))
    (tickers tickers' : list string) :
  tickers ≡ₚ tickers' →
  ∀ upd cur upd' cur' uc,
    upd ≡ₚ upd' → cur ≡ₚ cur' →
    classify_loop df_dict mongo_dict tickers upd cur = Ok uc →
    ∃ uc', classify_loop df_dict mongo_dict tickers' upd' cur' = Ok uc'
           ∧ uc'.1 ≡ₚ uc.1 ∧ uc'.2 ≡ₚ uc.2.
Proof.
  induction 1 as [|t l l' Hp IH|x y l|l1 l2 l3 Hp1 IH1 Hp2 IH2];
    intros upd cur upd' cur' uc Hu Hc.
  - by apply classify_loop_accumulators.
  - cbn [classify_loop].
    destruct (getitem df_dict t) as [a|]; cbn [obind]; [|discriminate].
    destruct (getitem mongo_dict t) as [b|]; cbn [obind]; [|discriminate].
    destruct (py_le a b) as [[|]|]; cbn [obind]; [| |discriminate].
    + apply IH; [done|]. by apply Permutation_app.
    + apply IH; [|done]. by apply Permutation_app.
  - cbn [classify_loop].
    destruct (getitem df_dict y) as [ay|]; cbn [obind]; [|discriminate].
    destruct (getitem mongo_dict y) as [by'|]; cbn [obind]; [|discriminate].
    destruct (py_le ay by') as [[|]|]; cbn [obind]; [| |discriminate];
      (destruct (getitem df_dict x) as [ax|]; cbn [obind]; [|discriminate]);
      (destruct (getitem mongo_dict x) as [bx|]; cbn [obind];
         [|discriminate]);
      (destruct (py_le ax bx) as [[|]|]; cbn [obind]; [| |discriminate]);
      apply classify_loop_accumulators;
      rewrite <- ?(assoc_L (++));
      first [done
            |apply Permutation_app; [done|]; first [done|apply perm_swap]].
  - intros H1.
    destruct (IH1 upd cur upd' cur' uc Hu Hc H1) as (uc1 & H2 & Hu1 & Hc1).
    destruct (IH2 upd' cur' upd' cur' uc1 (reflexivity _) (reflexivity _) H2)
      as (uc2 & H3 & Hu2 & Hc2).
    exists uc2. split; [done|]. split; by etrans.
Qed.

Lemma filter_not_isin_Permutation (cur cur' : list string) (df df' : list Row) :
  cur ≡ₚ cur' → df ≡ₚ df' →
  filter (λ r, ¬ isin (ticker r) cur) df
  ≡ₚ filter (λ r, ¬ isin (ticker r) cur') df'.
Proof.
  intros Hc Hd. rewrite Hd.
  rewrite (list_filter_iff (λ r, ¬ isin (ticker r) cur)
             (λ r, ¬ isin (ticker r) cur')); [done|].
  intros r. unfold isin. rewrite !bool_decide_spec. by rewrite Hc.
Qed.

(** X10.  Order does not matter to the classification.  On a reordered
    input it goes through whenever it did, and so does the loop in
    whatever order it takes the tickers present on both sides; either way
    the ticker lists are the same up to order and the frame holds the same
    rows. *)
Theorem X10_classification_ignores_order (stock_data stock_data' : list Row)
    (mongo_ticker_dict : gmap string (option Z)) (c : Classification)
    (tickers : list string) :
  stock_data ≡ₚ stock_data' →
  classify stock_data mongo_ticker_dict = Ok c →
  tickers ≡ₚ elements (dom (df_latest_dates_dict stock_data')
                         ∩ dom mongo_ticker_dict) →
  (∃ c',
     classify stock_data' mongo_ticker_dict = Ok c'
     ∧ c_new c' ≡ₚ c_new c ∧ c_missing c' ≡ₚ c_missing c
     ∧ c_update c' ≡ₚ c_update c ∧ c_current c' ≡ₚ c_current c
     ∧ c_filtered c' ≡ₚ c_filtered c)
  ∧ ∃ upd cur,
      classify_loop (df_latest_dates_dict stock_data') mongo_ticker_dict
        tickers [] [] = Ok (upd, cur)
      ∧ upd ≡ₚ c_update c ∧ cur ≡ₚ c_current c
      ∧ filter (λ r, ¬ isin (ticker r) cur) stock_data' ≡ₚ c_filtered c.
Proof.
  intros Hp Hc Ht. unfold classify in *.
  rewrite <- (df_latest_dates_dict_Permutation _ _ Hp) in *.
  destruct (classify_loop _ _ (elements _) [] []) as [[upd cur]|e] eqn:E;
    cbn [obind] in *; [|discriminate].
  injection Hc as <-.
  cbn [c_new c_missing c_update c_current c_filtered]. split.
  - eexists. split; [reflexivity|].
    cbn [c_new c_missing c_update c_current c_filtered fst snd].
    repeat split; try done. by rewrite Hp.
  - symmetry in Ht.
    destruct (classify_loop_Permutation _ _ _ _ Ht [] [] [] [] _
                (reflexivity _) (reflexivity _) E)
      as ([upd' cur'] & Hloop & Hu & Hcur).
    cbn [fst snd] in *. exists upd', cur'. split; [done|].
    split; [done|]. split; [done|].
    apply filter_not_isin_Permutation; [done|by symmetry].
Qed.

Lemma X10_classification_ignores_order_witness :
  ex_stock_data ≡ₚ reverse ex_stock_data
  ∧ classify ex_stock_data (latest_date <$> ex_docs_jan) = Ok ex_c_update
  ∧ (∃ c',
       classify (reverse ex_stock_data) (latest_date <$> ex_docs_jan) = Ok c'
       ∧ c_update c' ≡ₚ ["AAPL"] ∧ c_new c' ≡ₚ ["MSFT"])
  ∧ ∃ upd cur,
      classify_loop (df_latest_dates_dict (reverse ex_stock_data))
        (latest_date <$> ex_docs_jan)
        (reverse (elements (dom (df_latest_dates_dict (reverse ex_stock_data))
                              ∩ dom (latest_date <$> ex_docs_jan)))) [] []
      = Ok (upd, cur)
      ∧ upd ≡ₚ ["AAPL"] ∧ cur ≡ₚ [].
Proof.
  assert (ex_stock_data ≡ₚ reverse ex_stock_data) as H1
    by (symmetry; apply reverse_Permutation).
  assert (classify ex_stock_data (latest_date <$> ex_docs_jan) = Ok ex_c_update)
    as H2 by (vm_compute; reflexivity).
  split; [exact H1|]. split; [exact H2|].
  destruct (X10_classification_ignores_order _ _ _ _ _ H1 H2
              (reverse_Permutation _))
    as [(c' & Hc' & Hn & _ & Hu & _) (upd & cur & Hl & Hu' & Hc'' & _)].
  split.
  - exists c'. split; [exact Hc'|]. split; [exact Hu|exact Hn].
  - exists upd, cur. split; [exact Hl|]. split; [exact Hu'|exact Hc''].
Defined.

(** ** Whole runs *)

Lemma write_partitioned_stock_data_overwrite (stock_data : list Row)
    (st : State) :
  storage_error (world st) = None →
  mode (self st) = "overwrite" →
  write_partitioned_stock_data stock_data st
  = (Ok tt,
     mkState (set_api_artifact "WritingData" "Successful" (self st))
       (set_StockData stock_data (world st))).
Proof.
  intros Herr Hmode.
  unfold write_partitioned_stock_data, spark_write_parquet. unfold_monad.
  rewrite Herr, Hmode. by unfold_monad.
Qed.

Lemma write_partitioned_stock_data_append (stock_data : list Row)
    (st : State) :
  storage_error (world st) = None →
  mode (self st) = "append" →
  write_partitioned_stock_data stock_data st
  = (Ok tt,
     mkState (set_api_artifact "WritingData" "Successful" (self st))
       (set_StockData (StockData (world st) ++ stock_data) (world st))).
Proof.
  intros Herr Hmode.
  unfold write_partitioned_stock_data, spark_write_parquet. unfold_monad.
  rewrite Herr, Hmode. by unfold_monad.
Qed.

Lemma filter_all {A} (P : A → Prop) `{!∀ x, Decision (P x)} (l : list A) :
  (∀ x, P x) → filter P l = l.
Proof.
  intros HP. induction l as [|x l IH]; [done|].
  by rewrite filter_cons, decide_True, IH.
Qed.

Lemma read_stock_data_all (w : World) :
  read_stock_data None None w
  = (λ r, (ticker r, date_time r)) <$> StockData w.
Proof. unfold read_stock_data. by rewrite filter_all. Qed.

Lemma create_save_first (st : State) :
  mode (self st) = "overwrite" →
  create_save_stock_data_artifacts st
  = (Ok tt,
     mkState
       (set_api_artifact "StockDataArtifacts"
          "First artifacts created successfully" (self st))
       (set_StockDataArtifacts
          (foldl (λ docs row, <[row.1 := row.2]> docs)
             (StockDataArtifacts (world st))
             (first_aggregated_df
                ((λ r, (ticker r, date_time r)) <$> StockData (world st))))
          (world st))).
Proof.
  intros Hmode.
  unfold create_save_stock_data_artifacts, get_data, add_first_stock_artifacts.
  unfold_monad. rewrite Hmode. cbn. unfold_monad.
  by rewrite read_stock_data_all.
Qed.

(** The first run of a fresh object, step by step. *)
Lemma bootstrap_run (extract_date_from_path : string → string * Z * Z)
    (rid path : string) (w : World) (s : StockETL) (df : list Row)
    (st0 : State) :
  __init__ extract_date_from_path rid path w = Ok s →
  read_prepare_input_files (mkState s w) = (Ok df, st0) →
  StockDataArtifacts w = ∅ →
  storage_error w = None →
  ∃ st2,
    run_etl (mkState s w) = (Ok [api_artifacts (self st2)], st2)
    ∧ self st2
      = set_api_artifact "StockDataArtifacts"
          "First artifacts created successfully"
          (set_api_artifact "WritingData" "Successful"
             (set_api_artifact "run_id" rid
                (set_api_artifact "ETLArtifacts"
                   "First artifacts created successfully"
                   (set_mode "overwrite"
                      (set_api_artifact "LoadingData" "Successful" s)))))
    ∧ world st2
      = set_StockDataArtifacts
          (foldl (λ docs row, <[row.1 := row.2]> docs)
             (foldl (λ docs t, <[t := stub_stats]> docs) ∅
                (distinct_tickers df))
             (first_aggregated_df ((λ r, (ticker r, date_time r)) <$> df)))
          (set_StockData df
             (set_ETLArtifacts
                (ETLArtifacts w ++
                   [mkRunArtifact rid [] (distinct_tickers df) [] false]) w)).
Proof.
  intros Hinit Hread Hdocs Herr.
  apply init_Ok in Hinit as (d & y & m & ->).
  destruct (read_prepare_input_files_Ok _ _ _ Hread) as [-> _].
  cbn [self world] in *.
  set (s0 := set_api_artifact "LoadingData" "Successful" _) in *.
  pose proof (validate_bootstrap df (mkState s0 w) Hdocs) as Hval.
  eexists. split; [|split].
  - rewrite (run_etl_steps _ _ _ _ _ Hread Hval).
    cbn [state_after_bootstrap self skip_writing set_api_artifact set_mode s0].
    unfold bind at 1.
    rewrite write_partitioned_stock_data_overwrite; [|done..].
    unfold bind at 1. rewrite create_save_first; [|done].
    reflexivity.
  - reflexivity.
  - cbn. by rewrite Hdocs.
Qed.

(** X11.  The first run.  A fresh object that finds no stored document and
    whose write succeeds returns its report, has switched to overwrite,
    and leaves as stored data exactly the prepared input, whatever was
    stored before; the report has its [WritingData] entry and no
    [WritingMode] entry, and one run artifact naming the distinct input
    tickers as new has been added. *)
Theorem X11_first_run_overwrites
    (extract_date_from_path : string → string * Z * Z)
    (rid path : string) (w : World) (s : StockETL) (df : list Row)
    (st0 : State) :
  __init__ extract_date_from_path rid path w = Ok s →
  read_prepare_input_files (mkState s w) = (Ok df, st0) →
  StockDataArtifacts w = ∅ →
  storage_error w = None →
  ∃ st2,
    run_etl (mkState s w) = (Ok [api_artifacts (self st2)], st2)
    ∧ StockData (world st2) = df
    ∧ mode (self st2) = "overwrite"
    ∧ skip_writing (self st2) = false
    ∧ api_artifacts (self st2) !! "WritingData" = Some "Successful"
    ∧ api_artifacts (self st2) !! "WritingMode" = None
    ∧ ETLArtifacts (world st2)
      = (ETLArtifacts w ++
           [mkRunArtifact rid [] (distinct_tickers df) [] false])%list.
Proof.
  intros Hinit Hread Hdocs Herr.
  destruct (bootstrap_run _ _ _ _ _ _ _ Hinit Hread Hdocs Herr)
    as (st2 & Hrun & Hself & Hworld).
  apply init_Ok in Hinit as (d & y & m & ->).
  exists st2. split; [done|]. rewrite Hself, Hworld. repeat split.
Qed.

Lemma X11_first_run_overwrites_witness :
  __init__ ex_extract_date_from_path "run-1" ex_folder
    (ex_world ∅ ex_stock_data_aapl None)
  = Ok (ex_self ex_folder)
  ∧ read_prepare_input_files (ex_state ex_folder ∅ ex_stock_data_aapl None)
    = (Ok ex_stock_data, ex_loaded ex_folder ∅ ex_stock_data_aapl None)
  ∧ ∃ st2,
      run_etl (ex_state ex_folder ∅ ex_stock_data_aapl None)
      = (Ok [api_artifacts (self st2)], st2)
      ∧ StockData (world st2) = ex_stock_data.
Proof.
  assert (__init__ ex_extract_date_from_path "run-1" ex_folder
            (ex_world ∅ ex_stock_data_aapl None)
          = Ok (ex_self ex_folder)) as H1 by (vm_compute; reflexivity).
  assert (read_prepare_input_files
            (ex_state ex_folder ∅ ex_stock_data_aapl None)
          = (Ok ex_stock_data, ex_loaded ex_folder ∅ ex_stock_data_aapl None))
    as H2 by (vm_compute; reflexivity).
  split; [exact H1|]. split; [exact H2|].
  destruct (X11_first_run_overwrites _ _ _ _ _ _ _ H1 H2 eq_refl eq_refl)
    as (st2 & Hr & Hd & _).
  exists st2. split; [exact Hr|exact Hd].
Defined.

Lemma foldl_insert_lookup_notin (rows : list (string * Stats))
    (docs : gmap string Stats) (t : string) :
  t ∉ rows.*1 →
  foldl (λ docs row, <[row.1 := row.2]> docs) docs rows !! t = docs !! t.
Proof.
  revert docs. induction rows as [|row rows IH]; intros docs Hnotin; [done|].
  rewrite fmap_cons, not_elem_of_cons in Hnotin. destruct Hnotin as [Hne Hn].
  cbn [foldl]. rewrite IH by done. by rewrite lookup_insert_ne.
Qed.

Lemma foldl_insert_lookup_in (rows : list (string * Stats))
    (docs : gmap string Stats) (t : string) (stats : Stats) :
  NoDup rows.*1 → (t, stats) ∈ rows →
  foldl (λ docs row, <[row.1 := row.2]> docs) docs rows !! t = Some stats.
Proof.
  revert docs. induction rows as [|row rows IH]; intros docs Hnd Hin.
  - by apply elem_of_nil in Hin.
  - rewrite fmap_cons in Hnd. apply NoDup_cons in Hnd as [Hnotin Hnd].
    cbn [foldl]. apply elem_of_cons in Hin as [<-|Hin].
    + rewrite foldl_insert_lookup_notin by done. apply lookup_insert_eq.
    + by apply IH.
Qed.

Lemma group_ticker_date_time (t : string) (df : list Row) :
  group fst t ((λ r, (ticker r, date_time r)) <$> df)
  = (λ r, (ticker r, date_time r)) <$> group ticker t df.
Proof. unfold group. by rewrite filter_fmap_key. Qed.

(** X12.  The documents of the first run.  After the first run of a fresh
    object (with the collaborators as modelled: a whole-store read and one
    stored document per aggregated ticker) the tickers with a document are
    the tickers of the input, and the document of a ticker holds the number
    of its input rows and the least and the greatest of their
    [date_time]. *)
Theorem X12_first_run_documents
    (extract_date_from_path : string → string * Z * Z)
    (rid path : string) (w : World) (s : StockETL) (df : list Row)
    (st0 : State) :
  __init__ extract_date_from_path rid path w = Ok s →
  read_prepare_input_files (mkState s w) = (Ok df, st0) →
  StockDataArtifacts w = ∅ →
  storage_error w = None →
  ∃ report st2,
    run_etl (mkState s w) = (Ok report, st2)
    ∧ ∀ t,
        StockDataArtifacts (world st2) !! t
        = if decide (t ∈ distinct_tickers df)
          then Some (mkStats (Z.of_nat (length (group ticker t df)))
                       (sql_min (date_time <$> group ticker t df))
                       (sql_max (date_time <$> group ticker t df)))
          else None.
Proof.
  intros Hinit Hread Hdocs Herr.
  destruct (bootstrap_run _ _ _ _ _ _ _ Hinit Hread Hdocs Herr)
    as (st2 & Hrun & _ & Hworld).
  eexists _, st2. split; [exact Hrun|]. intros t. rewrite Hworld.
  cbn [StockDataArtifacts set_StockDataArtifacts].
  set (pairs := (λ r, (ticker r, date_time r)) <$> df).
  assert (distinct_keys fst pairs = distinct_tickers df) as Hkeys.
  { unfold distinct_tickers, distinct_keys, pairs.
    by rewrite <- list_fmap_compose. }
  destruct (decide (t ∈ distinct_tickers df)) as [Hin|Hout].
  - apply foldl_insert_lookup_in; [apply NoDup_groupBy_keys|].
    unfold first_aggregated_df. apply elem_of_groupBy. split.
    + apply elem_of_distinct_keys. by rewrite Hkeys.
    + unfold pairs. rewrite group_ticker_date_time, length_fmap.
      by rewrite <- !list_fmap_compose.
  - rewrite foldl_insert_lookup_notin.
    + rewrite stubs_lookup. by rewrite decide_False.
    + unfold first_aggregated_df. by rewrite groupBy_keys, Hkeys.
Qed.

Lemma X12_first_run_documents_witness :
  __init__ ex_extract_date_from_path "run-1" ex_folder (ex_world ∅ [] None)
  = Ok (ex_self ex_folder)
  ∧ read_prepare_input_files (ex_state ex_folder ∅ [] None)
    = (Ok ex_stock_data, ex_loaded ex_folder ∅ [] None)
  ∧ ∃ report st2,
      run_etl (ex_state ex_folder ∅ [] None) = (Ok report, st2)
      ∧ StockDataArtifacts (world st2) !! "AAPL"
        = Some (mkStats 2 (Some jan_31) (Some feb_15))
      ∧ StockDataArtifacts (world st2) !! "IBM" = None.
Proof.
  assert (__init__ ex_extract_date_from_path "run-1" ex_folder
            (ex_world ∅ [] None)
          = Ok (ex_self ex_folder)) as H1 by (vm_compute; reflexivity).
  assert (read_prepare_input_files (ex_state ex_folder ∅ [] None)
          = (Ok ex_stock_data, ex_loaded ex_folder ∅ [] None))
    as H2 by (vm_compute; reflexivity).
  split; [exact H1|]. split; [exact H2|].
  destruct (X12_first_run_documents _ _ _ _ _ _ _ H1 H2 eq_refl eq_refl)
    as (report & st2 & Hr & Hd).
  exists report, st2. split; [exact Hr|]. split.
  - rewrite (Hd "AAPL"). vm_compute. reflexivity.
  - rewrite (Hd "IBM"). vm_compute. reflexivity.
Defined.

(** X13.  A later run that has something to write.  A fresh object that
    finds stored documents, classifies at least one ticker as new or
    updated and whose write succeeds returns its report, stays in append
    mode, and leaves as stored data what was stored before followed by the
    frame of the classification: no stored row is removed or replaced, and
    the rows of an updated ticker are added whether or not they were
    stored already. *)
Theorem X13_later_run_appends
    (extract_date_from_path : string → string * Z * Z)
    (rid path : string) (w : World) (s : StockETL) (df : list Row)
    (st0 : State) (c : Classification) :
  __init__ extract_date_from_path rid path w = Ok s →
  read_prepare_input_files (mkState s w) = (Ok df, st0) →
  StockDataArtifacts w ≠ ∅ →
  classify df (latest_date <$> StockDataArtifacts w) = Ok c →
  c_filtered c ≠ [] →
  storage_error w = None →
  ∃ st2,
    run_etl (mkState s w) = (Ok [api_artifacts (self st2)], st2)
    ∧ StockData (world st2) = (StockData w ++ c_filtered c)%list
    ∧ mode (self st2) = "append"
    ∧ skip_writing (self st2) = false
    ∧ tickers_new (self st2) = c_new c
    ∧ api_artifacts (self st2) !! "WritingMode" = Some "append"
    ∧ api_artifacts (self st2) !! "WritingData" = Some "Successful"
    ∧ ETLArtifacts (world st2)
      = (ETLArtifacts w ++
           [mkRunArtifact rid (c_missing c) (c_new c) (c_update c) false])%list.
Proof.
  intros Hinit Hread Hne Hc Hfdf Herr.
  apply init_Ok in Hinit as (d & y & m & ->).
  destruct (read_prepare_input_files_Ok _ _ _ Hread) as [-> _].
  cbn [self world] in *.
  set (s0 := set_api_artifact "LoadingData" "Successful" _) in *.
  assert (skip_of c = false) as Hs.
  { destruct (skip_of c) eqn:E; [|done].
    by apply (classify_filtered_nil _ _ _ Hc) in E. }
  pose proof (validate_incremental df (mkState s0 w) c Hne Hc) as Hval.
  cbn [self world] in Hval.
  assert (self_after_classification c s0
          = set_api_artifact "run_id" rid
              (set_api_artifact "ETLArtifacts" "ETL Artifacts added successfully"
                 (set_api_artifact "WritingMode" "append"
                    (set_tickers_new (c_new c) s0)))) as Hself.
  { unfold self_after_classification. by rewrite Hs. }
  assert (world_after_classification c s0 w
          = set_ETLArtifacts
              (ETLArtifacts w ++
                 [mkRunArtifact rid (c_missing c) (c_new c) (c_update c) false])
              w) as Hworld.
  { unfold world_after_classification. by rewrite Hs. }
  rewrite Hself, Hworld in Hval.
  eexists. split.
  - rewrite (run_etl_steps _ _ _ _ _ Hread Hval). cbn [self skip_writing
      set_api_artifact set_tickers_new s0].
    unfold bind at 1.
    rewrite write_partitioned_stock_data_append; [|done..].
    unfold bind at 1. rewrite create_save_incremental; [|done].
    reflexivity.
  - repeat split.
Qed.

Lemma X13_later_run_appends_witness :
  __init__ ex_extract_date_from_path "run-1" ex_folder
    (ex_world ex_docs_jan [ex_row "AAPL" jan_31] None)
  = Ok (ex_self ex_folder)
  ∧ read_prepare_input_files
      (ex_state ex_folder ex_docs_jan [ex_row "AAPL" jan_31] None)
    = (Ok ex_stock_data,
       ex_loaded ex_folder ex_docs_jan [ex_row "AAPL" jan_31] None)
  ∧ classify ex_stock_data (latest_date <$> ex_docs_jan) = Ok ex_c_update
  ∧ ∃ st2,
      run_etl (ex_state ex_folder ex_docs_jan [ex_row "AAPL" jan_31] None)
      = (Ok [api_artifacts (self st2)], st2)
      ∧ StockData (world st2)
        = [ex_row "AAPL" jan_31; ex_row "AAPL" jan_31; ex_row "AAPL" feb_15;
           ex_row "MSFT" feb_15].
Proof.
  assert (__init__ ex_extract_date_from_path "run-1" ex_folder
            (ex_world ex_docs_jan [ex_row "AAPL" jan_31] None)
          = Ok (ex_self ex_folder)) as H1 by (vm_compute; reflexivity).
  assert (read_prepare_input_files
            (ex_state ex_folder ex_docs_jan [ex_row "AAPL" jan_31] None)
          = (Ok ex_stock_data,
             ex_loaded ex_folder ex_docs_jan [ex_row "AAPL" jan_31] None))
    as H2 by (vm_compute; reflexivity).
  assert (StockDataArtifacts (ex_world ex_docs_jan [ex_row "AAPL" jan_31] None)
          ≠ ∅) as H3.
  { intros H. apply (f_equal (λ m, m !! "AAPL")) in H. discriminate H. }
  assert (classify ex_stock_data (latest_date <$> ex_docs_jan) = Ok ex_c_update)
    as H4 by (vm_compute; reflexivity).
  split; [exact H1|]. split; [exact H2|]. split; [exact H4|].
  destruct (X13_later_run_appends _ _ _ _ _ _ _ ex_c_update H1 H2 H3 H4
              ltac:(discriminate) eq_refl) as (st2 & Hr & Hd & _).
  exists st2. split; [exact Hr|exact Hd].
Defined.

(** ** The aggregation *)

Lemma aggregated_figures {R} (key : R → string) (col col' : R → option Z)
    (df : list R) (t : string) (stats : Stats) :
  (∀ r, col' r = col r ∨ col' r = None) →
  (t, stats)
  ∈ groupBy key (λ _ g, mkStats (Z.of_nat (length g)) (sql_min (col' <$> g))
                          (sql_max (col <$> g))) df →
  1 ≤ row_count stats
  ∧ (∀ a b, oldest_date stats = Some a → latest_date stats = Some b → a ≤ b)
  ∧ (latest_date stats = None → oldest_date stats = None).
Proof.
  intros Hcol [(r & Hr & Hk) ->]%elem_of_groupBy.
  cbn [row_count oldest_date latest_date]. split; [|split].
  - assert (r ∈ group key t df) as Hg by (by apply elem_of_group).
    destruct (group key t df); [by apply elem_of_nil in Hg|].
    cbn [length]. lia.
  - intros a b [Ha _]%sql_min_Some [_ Hb]%sql_max_Some. apply Hb.
    apply list_elem_of_fmap in Ha as (r' & Ha & Hr').
    apply list_elem_of_fmap. exists r'. split; [|done].
    destruct (Hcol r') as [<-|Hn]; [done|]. rewrite Hn in Ha. discriminate.
  - intros Hb. apply sql_min_None.
    intros v (r' & -> & Hr')%list_elem_of_fmap.
    destruct (Hcol r') as [->|?]; [|done].
    apply (proj1 (sql_max_None _) Hb), list_elem_of_fmap. by exists r'.
Qed.

(** X14.  The aggregated figures.  In the frame of the first run and in the
    frame of a later run alike, every record counts at least one row, its
    [oldest_date] is not after its [latest_date] when both are present, and
    it has no [oldest_date] when it has no [latest_date]. *)
Theorem X14_aggregated_figures (tickers_new : list string)
    (df : list (string * option Z)) (t : string) (stats : Stats) :
  (t, stats) ∈ first_aggregated_df df
  ∨ (t, stats) ∈ update_aggregated_df tickers_new df →
  1 ≤ row_count stats
  ∧ (∀ a b, oldest_date stats = Some a → latest_date stats = Some b → a ≤ b)
  ∧ (latest_date stats = None → oldest_date stats = None).
Proof.
  intros [H|H].
  - apply (aggregated_figures fst snd snd df t); [by left|exact H].
  - apply (aggregated_figures fst snd
             (λ r, when (isin r.1 tickers_new) r.2) df t); [|exact H].
    intros r. unfold when. destruct (isin r.1 tickers_new); auto.
Qed.

Lemma X14_aggregated_figures_witness :
  ("AAPL", mkStats 2 (Some jan_31) (Some feb_15))
  ∈ first_aggregated_df
      [("AAPL", Some feb_15); ("MSFT", Some feb_15); ("AAPL", Some jan_31)]
  ∧ jan_31 ≤ feb_15.
Proof.
  assert (("AAPL", mkStats 2 (Some jan_31) (Some feb_15))
          ∈ first_aggregated_df
              [("AAPL", Some feb_15); ("MSFT", Some feb_15);
               ("AAPL", Some jan_31)]) as H.
  { apply list_elem_of_In. vm_compute. right. left. reflexivity. }
  split; [exact H|].
  destruct (X14_aggregated_figures [] _ _ _ (or_introl H)) as (_ & Hle & _).
  exact (Hle jan_31 feb_15 eq_refl eq_refl).
Defined.

Lemma foldr_add_ext (f g : string → Z) (ks : list string) :
  (∀ k, k ∈ ks → f k = g k) →
  foldr (λ k acc, f k + acc) 0 ks = foldr (λ k acc, g k + acc) 0 ks.
Proof.
  induction ks as [|k ks IH]; intros H; [done|]. cbn [foldr].
  rewrite (H k), IH; [done| |apply elem_of_cons; auto].
  intros k' Hk'. apply H, elem_of_cons. auto.
Qed.

Lemma group_sizes_add_up {R} (key : R → string) (ks : list string)
    (df : list R) :
  NoDup ks → (∀ r, r ∈ df → key r ∈ ks) →
  foldr (λ k acc, Z.of_nat (length (group key k df)) + acc) 0 ks
  = Z.of_nat (length df).
Proof.
  revert df. induction ks as [|k ks IH]; intros df Hnd Hkeys.
  - destruct df as [|r df]; [done|].
    specialize (Hkeys r). rewrite elem_of_cons in Hkeys.
    exfalso. eapply not_elem_of_nil. apply Hkeys. auto.
  - apply NoDup_cons in Hnd as [Hk Hnd]. cbn [foldr].
    set (rest := filter (λ r, ¬ key r = k) df).
    assert (foldr (λ k0 acc, Z.of_nat (length (group key k0 df)) + acc) 0 ks
            = foldr (λ k0 acc, Z.of_nat (length (group key k0 rest)) + acc)
                0 ks) as ->.
    { apply foldr_add_ext. intros k' Hk'. do 2 f_equal.
      unfold group, rest. rewrite list_filter_filter.
      apply list_filter_iff. intros r. split; [|tauto].
      intros Hr. split; [done|]. intros Hk2. apply Hk.
      by rewrite <- Hk2, Hr. }
    rewrite (IH rest Hnd).
    + pose proof (filter_app_complement (λ r, key r = k) df) as Hp.
      apply Permutation_length in Hp. rewrite length_app in Hp.
      fold (group key k df) in Hp. fold rest in Hp. lia.
    + intros r [Hne Hr]%list_elem_of_filter.
      apply Hkeys, elem_of_cons in Hr as [?|?]; done.
Qed.

Lemma total_row_count_groupBy {R} (key : R → string)
    (agg : string → list R → Stats) (df : list R) :
  (∀ k g, row_count (agg k g) = Z.of_nat (length g)) →
  total_row_count (groupBy key agg df) = Z.of_nat (length df).
Proof.
  intros Hagg. rewrite <- (group_sizes_add_up key (distinct_keys key df) df).
  - unfold groupBy, total_row_count.
    induction (distinct_keys key df) as [|k ks IH]; [done|].
    rewrite fmap_cons. cbn [foldr snd]. by rewrite Hagg, IH.
  - apply NoDup_distinct_keys.
  - intros r Hr. apply elem_of_distinct_keys. by exists r.
Qed.

(** X15.  No row is counted twice or left out.  In the frame of the first
    run and in the frame of a later run alike, the row counts of all
    records add up to the number of rows read. *)
Theorem X15_row_counts_add_up (tickers_new : list string)
    (df : list (string * option Z)) :
  total_row_count (first_aggregated_df df) = Z.of_nat (length df)
  ∧ total_row_count (update_aggregated_df tickers_new df)
    = Z.of_nat (length df).
Proof. split; by apply total_row_count_groupBy. Qed.

(** ** Runs in a row *)

Lemma read_prepare_input_files_folders (s : StockETL) (w w' : World)
    (df : list Row) (st0 : State) :
  read_prepare_input_files (mkState s w) = (Ok df, st0) →
  folders w' = folders w →
  read_prepare_input_files (mkState s w')
  = (Ok df, mkState (set_api_artifact "LoadingData" "Successful" s) w').
Proof.
  rewrite !read_prepare_input_files_eq. cbn [self world]. intros H ->.
  destruct (folders w !! input_folder_path s) as [[|f files]|];
    [discriminate| |discriminate].
  destruct (folder_records (f :: files)) as [|fr frs]; [discriminate|].
  by injection H as <- _.
Qed.

Lemma first_documents_lookup (docs0 : gmap string Stats) (df : list Row)
    (t : string) :
  (∃ r, r ∈ df ∧ ticker r = t) →
  foldl (λ docs row, <[row.1 := row.2]> docs) docs0
    (first_aggregated_df ((λ r, (ticker r, date_time r)) <$> df)) !! t
  = Some (mkStats (Z.of_nat (length (group ticker t df)))
            (sql_min (date_time <$> group ticker t df))
            (sql_max (date_time <$> group ticker t df))).
Proof.
  intros (r & Hr & Ht).
  apply foldl_insert_lookup_in; [apply NoDup_groupBy_keys|].
  unfold first_aggregated_df. apply elem_of_groupBy. split.
  - exists (ticker r, date_time r). split; [|done].
    apply list_elem_of_fmap. by exists r.
  - rewrite group_ticker_date_time, length_fmap.
    by rewrite <- !list_fmap_compose.
Qed.

Lemma first_documents_current (docs0 : gmap string Stats) (df : list Row) :
  Forall (λ r, is_Some (date_time r)) df →
  already_current df
    (foldl (λ docs row, <[row.1 := row.2]> docs) docs0
       (first_aggregated_df ((λ r, (ticker r, date_time r)) <$> df)))
  = true.
Proof.
  intros Hdated. unfold already_current. apply forallb_forall.
  intros [t v] Hin%list_elem_of_In.
  unfold df_latest_dates_list in Hin.
  apply elem_of_groupBy in Hin as [Hex ->].
  unfold current_row. cbn [fst snd]. rewrite (first_documents_lookup _ _ _ Hex).
  cbn [latest_date].
  destruct (sql_max (date_time <$> group ticker t df)) as [a|] eqn:E.
  - apply Z.leb_refl.
  - exfalso. destruct Hex as (r & Hr & Ht).
    rewrite Forall_forall in Hdated. destruct (Hdated r Hr) as [d Hd].
    assert (date_time r = None) as Hn; [|rewrite Hn in Hd; discriminate].
    apply (proj1 (sql_max_None _) E), list_elem_of_fmap. exists r.
    split; [done|]. by apply elem_of_group.
Qed.

(** A run of a fresh object on a store that is current for its input. *)
Lemma run_on_current_store (path d : string) (y m : Z) (rid : string)
    (w : World) (df : list Row) :
  read_prepare_input_files
    (mkState (mkStockETL path d y m "append" false [] ∅ rid) w)
  = (Ok df,
     mkState (set_api_artifact "LoadingData" "Successful"
                (mkStockETL path d y m "append" false [] ∅ rid)) w) →
  already_current df (StockDataArtifacts w) = true →
  ∃ report st2,
    run_etl (mkState (mkStockETL path d y m "append" false [] ∅ rid) w)
    = (Ok report, st2)
    ∧ skip_writing (self st2) = true
    ∧ StockData (world st2) = StockData w.
Proof.
  intros Hread Hall.
  destruct (read_prepare_input_files_Ok _ _ _ Hread) as [_ Hne].
  set (s0 := set_api_artifact "LoadingData" "Successful" _) in *.
  destruct (already_current_classify _ _ Hne Hall)
    as (Hdocs & c & Hc & Hnew & Hupd).
  assert (skip_of c = true) as Hs by (unfold skip_of; by rewrite Hnew, Hupd).
  pose proof (validate_incremental df (mkState s0 w) c Hdocs Hc) as Hval.
  cbn [self world] in Hval.
  set (st1 := mkState (self_after_classification c s0)
                (world_after_classification c s0 w)) in *.
  assert (skip_writing (self st1) = true) as Hsk.
  { unfold st1, self_after_classification. cbn [self]. by rewrite Hs. }
  assert (mode (self st1) ≠ "overwrite") as Hmode.
  { unfold st1, self_after_classification. cbn [self]. by rewrite Hs. }
  exists [api_artifacts (self (state_after_update st1))],
    (state_after_update st1).
  split; [|split].
  - rewrite (run_etl_steps _ _ _ _ _ Hread Hval), Hsk.
    unfold bind at 1. by rewrite create_save_incremental.
  - exact Hsk.
  - done.
Qed.

(** X16.  Two runs in a row.  When the first run of a fresh object on an
    empty store has gone through and every input row has a [date_time], a
    second fresh object run on the same folder (with the collaborators as
    modelled) finds every ticker current: it returns its report with
    [skip_writing] set, and the stored data is still exactly the prepared
    input, each row once. *)
Theorem X16_second_run_writes_nothing
    (extract_date_from_path : string → string * Z * Z)
    (rid path : string) (w : World) (s : StockETL) (df : list Row)
    (st0 : State) :
  __init__ extract_date_from_path rid path w = Ok s →
  read_prepare_input_files (mkState s w) = (Ok df, st0) →
  StockDataArtifacts w = ∅ →
  storage_error w = None →
  Forall (λ r, is_Some (date_time r)) df →
  ∃ report1 st2 report2 st3,
    run_etl (mkState s w) = (Ok report1, st2)
    ∧ __init__ extract_date_from_path rid path (world st2) = Ok s
    ∧ run_etl (mkState s (world st2)) = (Ok report2, st3)
    ∧ skip_writing (self st3) = true
    ∧ StockData (world st3) = df.
Proof.
  intros Hinit Hread Hdocs Herr Hdated.
  destruct (bootstrap_run _ _ _ _ _ _ _ Hinit Hread Hdocs Herr)
    as (st2 & Hrun & _ & Hworld).
  assert (folders (world st2) = folders w) as Hfolders by (by rewrite Hworld).
  assert (__init__ extract_date_from_path rid path (world st2) = Ok s)
    as Hinit2.
  { rewrite <- Hinit. unfold __init__, _validate_input_folder.
    by rewrite Hfolders. }
  apply init_Ok in Hinit as (d & y & m & ->).
  pose proof (read_prepare_input_files_folders _ _ _ _ _ Hread Hfolders)
    as Hread2.
  destruct (run_on_current_store _ _ _ _ _ _ _ Hread2)
    as (report2 & st3 & Hrun2 & Hskip & Hdata).
  { rewrite Hworld. cbn [StockDataArtifacts set_StockDataArtifacts].
    by apply first_documents_current. }
  eexists _, st2, report2, st3. split; [exact Hrun|].
  split; [exact Hinit2|]. split; [exact Hrun2|]. split; [exact Hskip|].
  by rewrite Hdata, Hworld.
Qed.

Lemma X16_second_run_writes_nothing_witness :
  __init__ ex_extract_date_from_path "run-1" ex_folder (ex_world ∅ [] None)
  = Ok (ex_self ex_folder)
  ∧ read_prepare_input_files (ex_state ex_folder ∅ [] None)
    = (Ok ex_stock_data, ex_loaded ex_folder ∅ [] None)
  ∧ Forall (λ r, is_Some (date_time r)) ex_stock_data
  ∧ ∃ report1 st2 report2 st3,
      run_etl (ex_state ex_folder ∅ [] None) = (Ok report1, st2)
      ∧ run_etl (mkState (ex_self ex_folder) (world st2)) = (Ok report2, st3)
      ∧ skip_writing (self st3) = true
      ∧ StockData (world st3) = ex_stock_data.
Proof.
  assert (__init__ ex_extract_date_from_path "run-1" ex_folder
            (ex_world ∅ [] None)
          = Ok (ex_self ex_folder)) as H1 by (vm_compute; reflexivity).
  assert (read_prepare_input_files (ex_state ex_folder ∅ [] None)
          = (Ok ex_stock_data, ex_loaded ex_folder ∅ [] None))
    as H2 by (vm_compute; reflexivity).
  assert (Forall (λ r, is_Some (date_time r)) ex_stock_data) as H3.
  { repeat constructor; eexists; reflexivity. }
  split; [exact H1|]. split; [exact H2|]. split; [exact H3|].
  destruct (X16_second_run_writes_nothing _ _ _ _ _ _ _ H1 H2 eq_refl eq_refl
              H3) as (r1 & st2 & r2 & st3 & Ha & _ & Hb & Hc & Hd).
  exists r1, st2, r2, st3.
  split; [exact Ha|]. split; [exact Hb|]. split; [exact Hc|exact Hd].
Defined.

(** X17.  When the classification goes through.  On the path with stored
    documents it returns a frame, without raising, as soon as every ticker
    that has both input rows and a stored document has a [date_time] on one
    of its rows and a stored [latest_date]; rows without [date_time] of
    other tickers, new ones included, do not stop it. *)
Theorem X17_classification_goes_through (stock_data : list Row) (st : State) :
  StockDataArtifacts (world st) ≠ ∅ →
  (∀ r doc, r ∈ stock_data →
     StockDataArtifacts (world st) !! ticker r = Some doc →
     is_Some (latest_date doc)
     ∧ ∃ r', r' ∈ stock_data ∧ ticker r' = ticker r
             ∧ is_Some (date_time r')) →
  ∃ c st',
    classify stock_data (latest_date <$> StockDataArtifacts (world st)) = Ok c
    ∧ validate_file_to_write stock_data st = (Ok (c_filtered c), st').
Proof.
  intros Hne Hdated.
  destruct (classify_total stock_data
              (latest_date <$> StockDataArtifacts (world st))) as [c Hc].
  - intros t (r & Hr & <-)%df_latest_dates_dict_dom
      [v Hv]%elem_of_dom.
    rewrite lookup_fmap in Hv.
    destruct (StockDataArtifacts (world st) !! ticker r) as [doc|] eqn:Hdoc;
      [|discriminate].
    destruct (Hdated r doc Hr Hdoc) as ([b Hb] & r' & Hr' & Ht' & [a Ha]).
    destruct (sql_max (date_time <$> group ticker (ticker r) stock_data))
      as [a'|] eqn:E.
    + exists a', b. split.
      * apply df_latest_dates_dict_lookup. split; [by exists r|done].
      * by rewrite lookup_fmap, Hdoc; cbn; rewrite Hb.
    + exfalso. assert (date_time r' = None) as Hn;
        [|rewrite Hn in Ha; discriminate].
      apply (proj1 (sql_max_None _) E), list_elem_of_fmap. exists r'.
      split; [done|]. by apply elem_of_group.
  - exists c. eexists. split; [exact Hc|]. by apply validate_incremental.
Qed.

Lemma X17_classification_goes_through_witness :
  StockDataArtifacts (world (ex_state ex_folder ex_docs_jan [] None)) ≠ ∅
  ∧ ∃ c st',
      classify ex_stock_data
        (latest_date <$>
           StockDataArtifacts (world (ex_state ex_folder ex_docs_jan [] None)))
      = Ok c
      ∧ validate_file_to_write ex_stock_data
          (ex_state ex_folder ex_docs_jan [] None)
        = (Ok (c_filtered c), st').
Proof.
  assert (StockDataArtifacts (world (ex_state ex_folder ex_docs_jan [] None))
          ≠ ∅) as H1.
  { intros H. apply (f_equal (λ m, m !! "AAPL")) in H. discriminate H. }
  split; [exact H1|].
  apply (X17_classification_goes_through ex_stock_data
           (ex_state ex_folder ex_docs_jan [] None) H1).
  intros r doc Hr Hdoc. split.
  - destruct (decide (ticker r = "AAPL")) as [Ht|Ht].
    + rewrite Ht in Hdoc. vm_compute in Hdoc. injection Hdoc as <-.
      eexists. reflexivity.
    + cbn in Hdoc. unfold ex_docs_jan in Hdoc.
      rewrite lookup_singleton_ne in Hdoc by done. discriminate.
  - exists r. split; [done|]. split; [done|].
    apply elem_of_cons in Hr as [->|Hr]; [eexists; reflexivity|].
    apply elem_of_cons in Hr as [->|Hr]; [eexists; reflexivity|].
    apply list_elem_of_singleton in Hr as ->. eexists; reflexivity.
Defined.
